(** * elwms: the SQLite worker glue, embedded from the JavaScript sources

    Sources embedded here:
    - [src/src/sqlite/sqliteWorker.js]  (the worker: [onmessage], [getInstance],
      [createDatabase], [uploadDatabase]);
    - [src/src/sqlite/index.js]         (the main side: module body, the worker
      reply handler of [initalizeWorker], the [api] object, [executeQuery],
      [executeQuerySync], and the caller appended to the file);
    - [src/unnamed/part_000]            (an earlier draft of the main side: module
      body and [api] object);
    - [src/README.md]                   (the pooled worker draft: [getDbConnection],
      [releaseDbConnection], [runQuery]; the worker pool draft: [getWorker],
      [releaseWorker]; the earlier worker appended to the file).

    JavaScript values are a small inductive type, exceptions are an error
    result, the console, [postMessage] and the wrapped library are events of
    a trace, and the event loop is a step relation. *)

From stdpp Require Import gmap strings list pretty.
From Stdlib Require Import ZArith Lia Ascii.

Open Scope Z_scope.

#[local] Set Warnings "-register-all".

(** ** JavaScript values *)

Module JS.

(** The values that travel through the glue.  Numbers are the integers the
    code produces ([Date.now()], indices, lengths): [VNum n] is the Number
    nearest to [n], which is [n] itself up to 2^53; [VErr] is an [Error]
    object with its [name] and [message]; [VBuf] an [ArrayBuffer] with its
    [byteLength]; [VBlob] a [Blob] with its [type] and content. *)
Inductive value : Type :=
| VUndef
| VNull
| VBool (b : bool)
| VNum (n : Z)
| VStr (s : string)
| VArr (elems : list value)
| VObj (fields : list (string * value))
| VErr (name message : string)
| VBuf (byteLength : Z)
| VBlob (mime : string) (content : value).

(** A completion: a value, or a thrown [Error] given by name and message. *)
Inductive result (A : Type) : Type :=
| Ok (a : A)
| Throw (name message : string).
Arguments Ok {A} a.
Arguments Throw {A} name message.

Definition TypeError {A} (message : string) : result A := Throw "TypeError" message.

(** Reading or calling an identifier that nothing binds.  The message is
    worded as V8 and SpiderMonkey word it. *)
Definition ReferenceError {A} (ident : string) : result A :=
  Throw "ReferenceError" (ident +:+ " is not defined").

(** ToBoolean. *)
Definition truthy (v : value) : bool :=
  match v with
  | VUndef | VNull => false
  | VBool b => b
  | VNum n => negb (n =? 0)
  | VStr s => negb (String.eqb s "")
  | _ => true
  end.

(** Own property lookup in an object literal. *)
Fixpoint assoc (k : string) (fields : list (string * value)) : value :=
  match fields with
  | [] => VUndef
  | (k', v) :: rest => if String.eqb k k' then v else assoc k rest
  end.

(** [o.k] and the destructuring [const { k } = o], for the properties the
    code reads: reading a property of [undefined] or [null] throws, a
    missing property reads as [undefined]. *)
Definition get (o : value) (k : string) : result value :=
  match o with
  | VUndef => TypeError ("Cannot read properties of undefined (reading '" +:+ k +:+ "')")
  | VNull => TypeError ("Cannot read properties of null (reading '" +:+ k +:+ "')")
  | VObj fields => Ok (assoc k fields)
  | VErr name message =>
      Ok (if String.eqb k "name" then VStr name
          else if String.eqb k "message" then VStr message else VUndef)
  | VBuf n => Ok (if String.eqb k "byteLength" then VNum n else VUndef)
  | VBlob mime _ => Ok (if String.eqb k "type" then VStr mime else VUndef)
  | _ => Ok VUndef
  end.

(** [v === "s"] *)
Definition is_str (v : value) (s : string) : bool :=
  match v with
  | VStr s' => String.eqb s' s
  | _ => false
  end.

(** *** Number::toString for integers

    A Number is a double: an integer above 2^53 is first rounded to the
    nearest double (ties to the even significand), and what is printed is
    the shortest decimal that reads back as that double, in full up to 21
    digits and in exponent form beyond. *)

Definition round_to_double (x : Z) : Z :=
  let e := Z.log2 x in
  if e <=? 52 then x
  else
    let ulp := 2 ^ (e - 52) in
    let q := x / ulp in
    let r := x mod ulp in
    let half := ulp / 2 in
    let q' := if r <? half then q
              else if half <? r then q + 1
              else if Z.even q then q else q + 1 in
    q' * ulp.

(** Does the integer [v] read back as the double [x], whose significand is
    [m] and whose unit in the last place is [ulp]?  The bounds are the
    midpoints to the neighbouring doubles, taken four times to stay in the
    integers; below a power of two the neighbour is half as far. *)
Definition reads_back (x ulp m v : Z) : bool :=
  let lo := 4 * x - (if m =? 2 ^ 52 then ulp else 2 * ulp) in
  let hi := 4 * x + 2 * ulp in
  ((lo <? 4 * v) && (4 * v <? hi)) || (Z.even m && ((4 * v =? lo) || (4 * v =? hi))).

(** The decimal with the fewest significant digits that reads back as [x],
    the nearest to [x] if there are two; [k] digits are tried with [fuel]
    more to go, [d] is the number of digits of [x]. *)
Fixpoint shortest (fuel : nat) (k d x ulp m : Z) : Z :=
  match fuel with
  | O => x
  | S fuel' =>
      let p := 10 ^ (d - k) in
      let c1 := (x / p) * p in
      let c2 := c1 + p in
      match reads_back x ulp m c1, reads_back x ulp m c2 with
      | true, true =>
          if x - c1 <? c2 - x then c1
          else if c2 - x <? x - c1 then c2
          else if Z.even (c1 / p) then c1 else c2
      | true, false => c1
      | false, true => c2
      | false, false => shortest fuel' (k + 1) d x ulp m
      end
  end.

Fixpoint strip_zeros (fuel : nat) (v : Z) : Z :=
  match fuel with
  | O => v
  | S fuel' => if v mod 10 =? 0 then strip_zeros fuel' (v / 10) else v
  end.

Definition digits (v : Z) : nat := String.length (pretty v).

(** [d.ddde+n] *)
Definition exponent_form (v : Z) : string :=
  match pretty (strip_zeros (digits v) v) with
  | EmptyString => EmptyString
  | String c EmptyString => String c EmptyString
  | String c rest => String c ("." +:+ rest)
  end +:+ "e+" +:+ pretty (Z.of_nat (digits v) - 1).

Definition positive_toString (n : Z) : string :=
  let x := round_to_double n in
  if 2 ^ 1024 <=? x then "Infinity"
  else if Z.log2 x <=? 52 then pretty x
  else
    let ulp := 2 ^ (Z.log2 x - 52) in
    let v := shortest (digits x) 1 (Z.of_nat (digits x)) x ulp (x / ulp) in
    if (digits v <=? 21)%nat then pretty v else exponent_form v.

Definition Number_toString (n : Z) : string :=
  if n =? 0 then "0"
  else if n <? 0 then "-" +:+ positive_toString (- n)
  else positive_toString n.

(** [Error.prototype.toString]: the name alone when the message is empty,
    the message alone when the name is. *)
Definition Error_toString (name message : string) : string :=
  if String.eqb name "" then message
  else if String.eqb message "" then name
  else name +:+ ": " +:+ message.

(** ToString, as used by template literals and property keys. *)
Fixpoint ToString (v : value) : string :=
  match v with
  | VUndef => "undefined"
  | VNull => "null"
  | VBool true => "true"
  | VBool false => "false"
  | VNum n => Number_toString n
  | VStr s => s
  | VArr elems =>
      (fix join (l : list value) : string :=
         match l with
         | [] => ""
         | [x] => match x with VUndef | VNull => "" | _ => ToString x end
         | x :: rest =>
             (match x with VUndef | VNull => "" | _ => ToString x end)
               +:+ "," +:+ join rest
         end) elems
  | VObj _ => "[object Object]"
  | VErr name message => Error_toString name message
  | VBuf _ => "[object ArrayBuffer]"
  | VBlob _ _ => "[object Blob]"
  end.

(** [a > b], the abstract relational comparison restricted to the operands
    the code compares: numbers, and [undefined], whose ToNumber is NaN, so
    that every comparison with it is false. *)
Definition js_gt (a b : value) : bool :=
  match a, b with
  | VNum x, VNum y => y <? x
  | _, _ => false
  end.

(** [structuredClone]: a deep copy.  Values here carry no identity, so the
    copy is rebuilt constructor by constructor. *)
Fixpoint structuredClone (v : value) : value :=
  match v with
  | VArr elems => VArr (map structuredClone elems)
  | VObj fields => VObj (map (fun kv => (kv.1, structuredClone kv.2)) fields)
  | VBlob mime content => VBlob mime (structuredClone content)
  | v => v
  end.

(** *** Strings: [indexOf] and [replace] with a string pattern *)

(** The text before and after the first occurrence of [pat] in [s]. *)
Fixpoint split_first (pat s : string) : option (string * string) :=
  if String.prefix pat s
  then Some ("", String.substring (String.length pat) (String.length s) s)
  else match s with
       | "" => None
       | String c s' =>
           match split_first pat s' with
           | Some (pre, post) => Some (String c pre, post)
           | None => None
           end
       end%string.

(** [s.indexOf(pat)] *)
Definition indexOf (s pat : string) : Z :=
  match split_first pat s with
  | Some (pre, _) => Z.of_nat (String.length pre)
  | None => -1
  end.

(** GetSubstitution for a string pattern (no capture groups): [$$] is a
    dollar, [$&] the match, [$`] the text before it, [$'] the text after it;
    any other [$] stays as it is. *)
Fixpoint GetSubstitution (matched pre post repl : string) : string :=
  match repl with
  | EmptyString => EmptyString
  | String "$"%char (String "$"%char r) =>
      String "$"%char (GetSubstitution matched pre post r)
  | String "$"%char (String "&"%char r) =>
      matched +:+ GetSubstitution matched pre post r
  | String "$"%char (String "`"%char r) =>
      pre +:+ GetSubstitution matched pre post r
  | String "$"%char (String "'"%char r) =>
      post +:+ GetSubstitution matched pre post r
  | String c r => String c (GetSubstitution matched pre post r)
  end.

(** [s.replace(pat, repl)] with a string [pat]: the first occurrence only. *)
Definition replace (s pat repl : string) : string :=
  match split_first pat s with
  | Some (pre, post) => pre +:+ GetSubstitution pat pre post repl +:+ post
  | None => s
  end.

End JS.
Import JS.

(** The state of a promise. *)
Inductive promise (A : Type) : Type :=
| Pending
| Fulfilled (a : A)
| Rejected (name message : string).
Arguments Pending {A}.
Arguments Fulfilled {A} a.
Arguments Rejected {A} name message.

(** ** The wrapped library, [@sqlite.org/sqlite-wasm]

    The library is not part of the repository: it is a parameter.  A
    database object is known by the file name it was opened on. *)

Definition Db : Type := string.

Record Sqlite3 : Type := {
  has_opfs : bool;                                (* ['opfs' in sqlite3] *)
  new_OpfsDb : string -> result Db;               (* [new sqlite3.oo1.OpfsDb(f)] *)
  new_DB : string -> string -> result Db;         (* [new sqlite3.oo1.DB(f, flags)] *)
  sqlite3_js_db_export : Db -> result value;      (* [sqlite3.capi.sqlite3_js_db_export(db)] *)
  libVersion : result value                       (* [sqlite3.version.libVersion] *)
}.

(** What [db.exec] returns: data (the rows, the SQL list), or the database
    object itself, which holds functions and cannot be cloned. *)
Inductive exec_result : Type :=
| ExecData (v : value)
| ExecDb.

Record Library : Type := {
  sqlite3InitModule : result Sqlite3;                   (* the awaited initialisation *)
  db_exec : Db -> value -> value -> result exec_result  (* [db.exec({ sql, returnValue })] *)
}.

(** What a piece of code does besides computing: console output, messages
    posted to the other side, calls into the library, timers. *)
Inductive event : Type :=
| ConsoleLog (args : list value)
| ConsoleError (args : list value)
| PostMessage (msg : value)
| LibInit
| LibOpen (ctor filename : string)
| LibExport (db : Db)
| LibExec (db : Db) (sql returnValue : value)
| SetTimeout0
| WorkerPost (worker : string) (msg : value)       (* [worker.postMessage(msg)] on the main side *)
| Broadcast (channel : string) (msg : value).

Definition posted (tr : list event) : list value :=
  omap (fun e => match e with PostMessage m => Some m | _ => None end) tr.

(** The messages the main side posted to workers. *)
Definition worker_posts (evs : list event) : list value :=
  omap (fun e => match e with WorkerPost _ m => Some m | _ => None end) evs.

Definition is_lib_call (e : event) : bool :=
  match e with
  | LibInit | LibOpen _ _ | LibExport _ | LibExec _ _ _ => true
  | _ => false
  end.



Definition is_error_print (e : event) : bool :=
  match e with ConsoleError _ => true | _ => false end.

(** ** The worker, [src/src/sqlite/sqliteWorker.js] *)

Module Worker.

(** The module variable [instance] and what the worker has done so far. *)
Record state : Type := {
  instance : option Db;   (* [var instance = null] *)
  trace : list event
}.

(** An [async] function body over the worker state: it ends fulfilled,
    rejected, or suspended on a promise that is still pending. *)
Definition M (A : Type) : Type := state -> promise A * state.

#[export] Instance M_ret : MRet M := fun A a st => (Fulfilled a, st).
#[export] Instance M_bind : MBind M := fun A B f m st =>
  match m st with
  | (Fulfilled a, st') => f a st'
  | (Rejected name message, st') => (Rejected name message, st')
  | (Pending, st') => (Pending, st')
  end.

Definition emit (e : event) : M unit := fun st =>
  (Fulfilled (), {| instance := instance st; trace := trace st ++ [e] |}).

Definition lift {A} (r : result A) : M A := fun st =>
  match r with
  | Ok a => (Fulfilled a, st)
  | Throw name message => (Rejected name message, st)
  end.

Definition write_instance (db : Db) : M unit := fun st =>
  (Fulfilled (), {| instance := Some db; trace := trace st |}).

(** [try { body } catch (e) { handler }] and [promise.catch(handler)] *)
Definition try_catch {A} (body : M A) (handler : value -> M A) : M A := fun st =>
  match body st with
  | (Rejected name message, st') => handler (VErr name message) st'
  | r => r
  end.

Definition log (args : list value) : M unit := emit (ConsoleLog args).
Definition error (args : list value) : M unit := emit (ConsoleError args).
Definition postMessage (msg : value) : M unit := emit (PostMessage msg).

(** *** [getInstance] (lines 53-69) *)

Inductive poll : Type :=
| Resolve (db : Db)
| Again                       (* [setTimeout(checkAgain, 0)] *)
| Reject (name message : string).

(** One invocation of [checkAgain], whose own parameter is [tries].
    [let tryCount = 0] is local to the invocation, and [tryCount++]
    yields the value before the increment. *)
Definition checkAgain (instance : option Db) (tries : value) : poll :=
  let tryCount := 0 in
  match instance with
  | Some db => Resolve db
  | None =>
      if js_gt tries (VNum tryCount) then Again
      else Reject "Error" "not working"
  end.

(** The promise of [getInstance] after the executor has run and [n] timer
    callbacks have fired, with the number of timers scheduled; [inst k] is
    the value of [instance] when the [k]-th invocation runs.  Both the
    executor ([checkAgain()]) and the timer ([setTimeout(checkAgain, 0)])
    invoke [checkAgain] without an argument, so its parameter is
    [undefined]. *)
Fixpoint checkAgain_loop (inst : nat -> option Db) (k n : nat) : promise Db * nat :=
  match checkAgain (inst k) VUndef with
  | Resolve db => (Fulfilled db, 0%nat)
  | Reject name message => (Rejected name message, 0%nat)
  | Again =>
      match n with
      | O => (Pending, 1%nat)
      | S n' => let '(p, timers) := checkAgain_loop inst (S k) n' in (p, S timers)
      end
  end.

(** [getInstance(tries)]: the argument is shadowed by the parameter of
    [checkAgain] and is never read. *)
Definition getInstance (tries : value) (inst : nat -> option Db) (n : nat)
  : promise Db * nat :=
  checkAgain_loop inst 0 n.

(** [await getInstance(tries)] inside a handler: the executor runs on the
    spot; a promise left pending suspends the handler. *)
Definition await_getInstance (tries : value) : M Db := fun st =>
  let '(p, timers) := getInstance tries (fun _ => instance st) 0 in
  (p, {| instance := instance st; trace := trace st ++ replicate timers SetTimeout0 |}).

(** *** [createDatabase] (lines 71-79) and [uploadDatabase] (lines 81-93)

    Both resolve with an object [{ db, message }], or with [undefined]
    ([None]) when the [.catch] callback has run. *)

Definition catch_print (err : value) : M (option (Db * string)) :=
  name ← lift (get err "name");
  message ← lift (get err "message");
  error [name; message];;
  mret None.

Definition createDatabase (lib : Library) (name : value) : M (option (Db * string)) :=
  try_catch
    (emit LibInit;;
     sqlite3 ← lift (sqlite3InitModule lib);
     let file := "/" +:+ ToString name +:+ ".sqlite3" in
     if has_opfs sqlite3 then
       emit (LibOpen "OpfsDb" file);;
       db ← lift (new_OpfsDb sqlite3 file);
       mret (Some (db, "OPFS is available, created persisted database at " +:+ file))
     else
       emit (LibOpen "DB" file);;
       db ← lift (new_DB sqlite3 file "ct");
       mret (Some (db, "OPFS is not available, created transient database " +:+ file)))
    catch_print.

Definition uploadDatabase (lib : Library) (name arrayBuffer : value)
  : M (option (Db * string)) :=
  try_catch
    (emit LibInit;;
     sqlite3 ← lift (sqlite3InitModule lib);
     let file := "/" +:+ ToString name +:+ ".sqlite3" in
     if has_opfs sqlite3 then
       emit (LibOpen "OpfsDb" file);;
       db ← lift (new_OpfsDb sqlite3 file);
       byteLength ← lift (get arrayBuffer "byteLength");
       (* the second [message:] of the literal overrides the first *)
       mret (Some (db, "New DB imported as " +:+ ToString name +:+ ".sqlite3. ("
                         +:+ ToString byteLength +:+ " Bytes)"))
     else
       lift (Throw "Error" "unsupported"))
    catch_print.

(** [const { db, message } = await ...] *)
Definition destructure_db_message (r : option (Db * string)) : M (Db * string) :=
  match r with
  | Some dm => mret dm
  | None => lift (TypeError "Cannot destructure property 'db' of '(intermediate value)' as it is undefined.")
  end.

(** *** [onmessage] (lines 8-51) *)

(** The bindings of the identifiers [sqlite3] and [db] as seen from the
    statement that uses them. *)
Record scope : Type := {
  sc_sqlite3 : option Sqlite3;
  sc_db : option Db
}.

Definition resolve {A} (ident : string) (binding : option A) : result A :=
  match binding with
  | Some a => Ok a
  | None => ReferenceError ident
  end.

(** The scope of line 30.  The module declares [sqlite3InitModule], [log],
    [error], [instance], [getInstance], [createDatabase] and
    [uploadDatabase]; the parameters named [sqlite3] belong to the [.then]
    callbacks of lines 73 and 83; the constants named [db] belong to the
    block of [case 'createDB'], the [try] block of [case 'uploadDB'] and the
    block of [case 'executeQuery'].  None encloses the [try] block of
    [case 'downloadDB']. *)
Definition downloadDB_scope : scope := {| sc_sqlite3 := None; sc_db := None |}.

Definition NOMEM_notice : value :=
  VObj [("type", VStr "application/vnd.sqlite3"); ("error", VStr "SQLITE_NOMEM")].

(** The [try] block of [case 'downloadDB'] (lines 30-32). *)
Definition downloadDB_try (sc : scope) : M unit :=
  sqlite3 ← lift (resolve "sqlite3" (sc_sqlite3 sc));
  db ← lift (resolve "db" (sc_db sc));
  emit (LibExport db);;
  byteArray ← lift (sqlite3_js_db_export sqlite3 db);
  buffer ← lift (get byteArray "buffer");
  postMessage (VBlob "application/vnd.sqlite3" (VArr [buffer])).

(** The [catch] block of [case 'downloadDB'] (lines 34-37). *)
Definition downloadDB_catch (e : value) : M unit :=
  message ← lift (get e "message");
  match message with
  | VStr m =>
      if negb (indexOf m "SQLITE_NOMEM" =? -1)
      then postMessage NOMEM_notice
      else error [e]
  | _ => lift (TypeError "e.message.indexOf is not a function")
  end.

(** [this.structuredClone(result)] *)
Definition clone_exec_result (r : exec_result) : result value :=
  match r with
  | ExecData v => Ok (structuredClone v)
  | ExecDb => Throw "DataCloneError" "The object could not be cloned."
  end.

(** [switch (action)]: strict equality with the four labels, in order. *)
Inductive case : Type :=
| case_createDB
| case_uploadDB
| case_downloadDB
| case_executeQuery
| case_default.

Definition switch (action : value) : case :=
  if is_str action "createDB" then case_createDB
  else if is_str action "uploadDB" then case_uploadDB
  else if is_str action "downloadDB" then case_downloadDB
  else if is_str action "executeQuery" then case_executeQuery
  else case_default.

(** The labels of the [switch]. *)
Definition known_actions : list value :=
  [VStr "createDB"; VStr "uploadDB"; VStr "downloadDB"; VStr "executeQuery"].

Definition onmessage (lib : Library) (data : value) : M unit :=
  action ← lift (get data "action");
  match switch action with
  | case_createDB =>
      name ← lift (get data "name");
      r ← createDatabase lib name;
      '(db, message) ← destructure_db_message r;
      write_instance db;;
      log [VStr message]
  | case_uploadDB =>
      try_catch
        (name ← lift (get data "name");
         arrayBuffer ← lift (get data "arrayBuffer");
         r ← uploadDatabase lib name arrayBuffer;
         '(db, message) ← destructure_db_message r;
         write_instance db;;
         log [VStr message])
        (fun e => error [e])
  | case_downloadDB =>
      try_catch (downloadDB_try downloadDB_scope) downloadDB_catch
  | case_executeQuery =>
      sql ← lift (get data "sql");
      returnValue ← lift (get data "returnValue");
      log [sql];;
      db ← await_getInstance (VNum 1);
      emit (LibExec db sql returnValue);;
      result ← lift (db_exec lib db sql returnValue);
      timestamp ← lift (get data "timestamp");
      cloned ← lift (clone_exec_result result);
      postMessage (VObj [("timestamp", timestamp); ("result", cloned);
                         ("type", VStr "application/json")])
  | case_default =>
      log [data]
  end.


(** A handler run from a given value of [instance], with an empty trace. *)
Definition handle (lib : Library) (inst : option Db) (data : value) : promise unit * state :=
  onmessage lib data {| instance := inst; trace := [] |}.

End Worker.

(** ** The main side, [src/src/sqlite/index.js] *)

Module Index.

(** *** The module body (lines 9-11, 71-81 and 113) *)

(** The two objects [publicAPI] can hold: the initial [{}] and [api]. *)
Inductive api_object : Type :=
| EmptyObject
| Api.

Definition methods (o : api_object) : list string :=
  match o with
  | EmptyObject => []
  | Api => ["createDB"; "getWorker"; "downloadDB"; "uploadDB"]
  end%string.

(** The console output of the module body and the value of [publicAPI] when
    [export default publicAPI] is evaluated, given [window.Worker] and the
    outcome of the awaited [sqlite3InitModule]. *)
Definition module_body (window_Worker : value) (lib : Library) : list event * api_object :=
  let publicAPI := EmptyObject in
  if truthy window_Worker then
    match sqlite3InitModule lib with
    | Ok sqlite3 =>
        match libVersion sqlite3 with
        | Ok version =>
            ([LibInit; ConsoleLog [VStr "Running SQLite3 version"; version]], Api)
        | Throw name message =>
            ([LibInit; ConsoleError [VStr "Initialization error:"; VStr name; VStr message]],
             publicAPI)
        end
    | Throw name message =>
        ([LibInit; ConsoleError [VStr "Initialization error:"; VStr name; VStr message]],
         publicAPI)
    end
  else
    ([ConsoleError [VStr "Your browser doesn't support web workers."]], publicAPI).

(** *** The reply handler installed by [initalizeWorker] (lines 15-32) *)

(** [returnValues]: a plain object used as a map; a property key is the
    string of the value used as index. *)
Abbreviation returnValues_t := (gmap string value).

Definition key (timestamp : value) : string := ToString timestamp.

Definition worker_onmessage (returnValues : returnValues_t) (data : value)
  : result (returnValues_t * list event) :=
  match get data "type" with
  | Throw name message => Throw name message
  | Ok type =>
      if is_str type "application/vnd.sqlite3" then
        Ok (returnValues, [Broadcast "download_channel" data])
      else if is_str type "application/json" then
        match get data "timestamp", get data "result" with
        | Ok timestamp, Ok result =>
            Ok (<[key timestamp := structuredClone result]> returnValues, [])
        | Throw name message, _ | _, Throw name message => Throw name message
        end
      else
        match get data "message" with
        | Ok message => Ok (returnValues, [ConsoleLog [VStr "Response from worker: "; message]])
        | Throw name message => Throw name message
        end
  end.

(** *** Placeholder replacement (lines 85 and 107) *)

(** [values.forEach(function replacePlaceholder(item, index) { ... })] on a
    string [queryString]. *)
Fixpoint replacePlaceholders (items : list value) (index : nat) (queryString : string)
  : string :=
  match items with
  | [] => queryString
  | item :: rest =>
      replacePlaceholders rest (S index)
        (replace queryString ("$" +:+ pretty (index + 1)%nat) ("'" +:+ ToString item +:+ "'"))
  end.

(** [Array.prototype.indexOf] for a string needle: strict equality. *)
Fixpoint array_indexOf (elems : list value) (needle : string) (i : Z) : Z :=
  match elems with
  | [] => -1
  | x :: rest => if is_str x needle then i else array_indexOf rest needle (i + 1)
  end.

(** [queryString.indexOf("$")] for whatever [text] was passed. *)
Definition js_indexOf (queryString : value) (needle : string) : result Z :=
  match queryString with
  | VStr s => Ok (indexOf s needle)
  | VArr elems => Ok (array_indexOf elems needle 0)
  | VUndef => TypeError "Cannot read properties of undefined (reading 'indexOf')"
  | VNull => TypeError "Cannot read properties of null (reading 'indexOf')"
  | _ => TypeError "queryString.indexOf is not a function"
  end.

(** [values.forEach(replacePlaceholder)]: only arrays have [forEach], only
    strings have [replace]. *)
Definition js_forEach_replace (values queryString : value) : result value :=
  match values with
  | VArr [] => Ok queryString
  | VArr items =>
      match queryString with
      | VStr q => Ok (VStr (replacePlaceholders items 0 q))
      | _ => TypeError "queryString.replace is not a function"
      end
  | _ => TypeError "values.forEach is not a function"
  end.

(** Line 85: [if (values && queryString.indexOf("$") != -1) values.forEach(...)] *)
Definition executeQuery_queryString (text values : value) : result value :=
  if truthy values then
    match js_indexOf text "$" with
    | Ok i => if negb (i =? -1) then js_forEach_replace values text else Ok text
    | Throw name message => Throw name message
    end
  else Ok text.

(** Line 107: [if (values && queryString.indexOf("$") === -1) values.forEach(...)] *)
Definition executeQuerySync_queryString (text values : value) : result value :=
  if truthy values then
    match js_indexOf text "$" with
    | Ok i => if i =? -1 then js_forEach_replace values text else Ok text
    | Throw name message => Throw name message
    end
  else Ok text.

(** *** The identifier [getWorker] (lines 86 and 109)

    The module declares no [getWorker] ([api.getWorker] is a property, used
    as [this.getWorker(name)] on line 44), so the identifier is looked up in
    the global object of the page. *)
Inductive global_getWorker : Type :=
| Unbound                                  (* no such global: as in the module's own scope *)
| Returns (worker : option string)         (* a global function; its awaited result is the
                                              worker of that name, or not a worker at all *)
| Throws (name message : string).          (* a global function that throws or rejects *)

Definition await_getWorker (gw : global_getWorker) : result (option string) :=
  match gw with
  | Unbound => ReferenceError "getWorker"
  | Returns w => Ok w
  | Throws name message => Throw name message
  end.

(** [worker.postMessage(msg)] *)
Definition worker_postMessage (worker : option string) (msg : value) : result (list event) :=
  match worker with
  | Some w => Ok [WorkerPost w msg]
  | None => TypeError "Cannot read properties of undefined (reading 'postMessage')"
  end.

(** *** [executeQuery] (lines 83-103) *)

(** One invocation of [checkAgain] (lines 91-97): [Some v] is [resolve(v)],
    [None] is [setTimeout(checkAgain, 0)]. *)
Definition checkAgain (returnValues : returnValues_t) (timestamp : Z) : option value :=
  match returnValues !! key (VNum timestamp) with
  | Some stored => if truthy stored then Some (structuredClone stored) else None
  | None => None
  end.

Definition exec_message (timestamp : Z) (queryString : value) : value :=
  VObj [("timestamp", VNum timestamp); ("type", VStr "exec");
        ("sql", queryString); ("returnValue", VStr "resultRows")].

(** What a call leaves behind. *)
Record call : Type := {
  call_events : list event;                 (* in order *)
  call_returnValues : returnValues_t;       (* [returnValues] when the call returns *)
  call_promise : promise value;             (* the promise the call returns *)
  call_timer : option Z                     (* a scheduled [checkAgain], by its [timestamp] *)
}.

Definition rejected (returnValues : returnValues_t) (name message : string) : call :=
  {| call_events := []; call_returnValues := returnValues;
     call_promise := Rejected name message; call_timer := None |}.

(** [executeQuery({ text, values })] called when [Date.now()] is [now].
    The executor of [new Promise] runs [checkAgain()] once on the spot; the
    [finally] clause runs when the [return] statement completes. *)
Definition executeQuery (gw : global_getWorker) (returnValues : returnValues_t)
    (now : Z) (text values : value) : call :=
  match executeQuery_queryString text values with
  | Throw name message => rejected returnValues name message
  | Ok queryString =>
      match await_getWorker gw with
      | Throw name message => rejected returnValues name message
      | Ok worker =>
          let timestamp := now in
          match worker_postMessage worker (exec_message timestamp queryString) with
          | Throw name message => rejected returnValues name message
          | Ok evs =>
              (* try { return new Promise(...) } *)
              let first := checkAgain returnValues timestamp in
              (* finally { delete returnValues[timestamp] } *)
              let returnValues' := delete (key (VNum timestamp)) returnValues in
              match first with
              | Some v =>
                  {| call_events := evs; call_returnValues := returnValues';
                     call_promise := Fulfilled v; call_timer := None |}
              | None =>
                  {| call_events := evs ++ [SetTimeout0]; call_returnValues := returnValues';
                     call_promise := Pending; call_timer := Some timestamp |}
              end
          end
      end
  end.

(** *** [executeQuerySync] (lines 105-111) *)

Definition sync_message (queryString : value) : value :=
  VObj [("type", VStr "exec"); ("sql", queryString); ("returnValue", VStr "resultRows")].

(** [JSON.stringify] is the host's; it is a parameter.  The result is the
    message built on line 108, or the error, and the events of the call. *)
Definition executeQuerySync (JSON_stringify : value -> string) (gw : global_getWorker)
    (text values : value) : result value * list event :=
  match executeQuerySync_queryString text values with
  | Throw name message => (Throw name message, [])
  | Ok queryString =>
      let message := sync_message queryString in
      match await_getWorker gw with
      | Throw name message => (Throw name message, [])
      | Ok worker =>
          match worker_postMessage worker (VStr (JSON_stringify message)) with
          | Throw name message => (Throw name message, [])
          | Ok evs => (Ok message, evs)
          end
      end
  end.

End Index.

(** ** The earlier draft of the main side, [src/unnamed/part_000] *)

Module Draft.

Inductive api_object : Type :=
| EmptyObject
| Api.

Definition methods (o : api_object) : list string :=
  match o with
  | EmptyObject => []
  | Api => ["getWorker"; "createDB"; "executeQuery"; "downloadDB"; "uploadDB"]
  end%string.

(** Lines 10, 84-94 and 106. *)
Definition module_body (window_Worker : value) (lib : Library) : list event * api_object :=
  let publicAPI := EmptyObject in
  if truthy window_Worker then
    match sqlite3InitModule lib with
    | Ok sqlite3 =>
        match libVersion sqlite3 with
        | Ok version =>
            ([LibInit; ConsoleLog [VStr "Running SQLite3 version"; version]], Api)
        | Throw name message =>
            ([LibInit; ConsoleError [VStr "Initialization error:"; VStr name; VStr message]],
             publicAPI)
        end
    | Throw name message =>
        ([LibInit; ConsoleError [VStr "Initialization error:"; VStr name; VStr message]],
         publicAPI)
    end
  else
    ([ConsoleError [VStr "Your browser doesn't support web workers."]], publicAPI).

End Draft.

(** ** The pooled worker draft of [src/README.md] (lines 225-260) *)

Module Pool.

(** A database instance is an object; it is known by the order in which
    [createDbInstance] made it. *)
Record state : Type := {
  dbPool : list nat;     (* [let dbPool = []] *)
  created : nat;         (* instances made so far *)
  closed : list nat      (* instances on which [db.close()] was called *)
}.

Definition MAX_POOL_SIZE : nat := 4.

(** [dbPool.push(db)] *)
Definition push (db : nat) (st : state) : state :=
  {| dbPool := dbPool st ++ [db]; created := created st; closed := closed st |}.

(** [dbPool.pop()]: the last element, [undefined] on an empty array. *)
Definition pop (st : state) : option nat * state :=
  (last (dbPool st),
   {| dbPool := removelast (dbPool st); created := created st; closed := closed st |}).

(** [createDbInstance()] (lines 229-240): a new instance, unless the
    library fails ([init_ok = false]), in which case the promise rejects. *)
Definition createDbInstance (init_ok : bool) (st : state) : option nat * state :=
  if init_ok
  then (Some (created st),
        {| dbPool := dbPool st; created := S (created st); closed := closed st |})
  else (None, st).

(** The part of [getDbConnection] that runs once [await createDbInstance()]
    has produced [db] (lines 246 and 250), on the pool as it is then. *)
Definition getDbConnection_resume (db : nat) (st : state) : option nat * state :=
  pop (push db st).

(** [getDbConnection()] (lines 243-251) with nothing else running during
    the [await]; [None] in the first component is a rejected call. *)
Definition getDbConnection (init_ok : bool) (st : state) : option (option nat) * state :=
  if (length (dbPool st) <? MAX_POOL_SIZE)%nat then
    match createDbInstance init_ok st with
    | (Some db, st') => let '(r, st'') := getDbConnection_resume db st' in (Some r, st'')
    | (None, st') => (None, st')
    end
  else
    let '(r, st') := pop st in (Some r, st').

(** [releaseDbConnection(db)] (lines 254-260) *)
Definition releaseDbConnection (db : nat) (st : state) : state :=
  if (length (dbPool st) <? MAX_POOL_SIZE)%nat then push db st
  else {| dbPool := dbPool st; created := created st; closed := closed st ++ [db] |}.

(** Every pooled instance was made by [createDbInstance]. *)
Definition wf (st : state) : Prop := Forall (fun db => (db < created st)%nat) (dbPool st).

Definition init : state := {| dbPool := []; created := 0; closed := [] |}.

End Pool.

(** ** The two sides together: the event loop as a step relation *)

Module System.
Import Index.

(** The messages [index.js] hands to [postMessage]: lines 45, 54, 63, 88
    and 110. *)
Inductive posted_by_index : value -> Prop :=
| post_createDB name :
    posted_by_index (VObj [("action", VStr "createDB"); ("name", name)])
| post_downloadDB :
    posted_by_index (VObj [("action", VStr "downloadDB")])
| post_uploadDB name arrayBuffer :
    posted_by_index (VObj [("action", VStr "uploadDB"); ("name", name);
                           ("arrayBuffer", arrayBuffer)])
| post_exec timestamp queryString :
    posted_by_index (exec_message timestamp queryString)
| post_json text :
    posted_by_index (VStr text).

Record state : Type := {
  returnValues : gmap string value;
  to_workers : list value;        (* posted by the main side, not yet handled *)
  to_main : list value;           (* posted by a worker, not yet handled *)
  timers : list Z;                (* scheduled [checkAgain]s, by [timestamp] *)
  fulfilled : list (Z * value)    (* [executeQuery] promises resolved so far *)
}.

Definition init : state :=
  {| returnValues := ∅; to_workers := []; to_main := []; timers := []; fulfilled := [] |}.

(** The state after a call of [executeQuery]. *)
Definition after_call (s : state) (now : Z) (c : call) : state :=
  {| returnValues := call_returnValues c;
     to_workers := to_workers s ++ worker_posts (call_events c);
     to_main := to_main s;
     timers := timers s ++ option_list (call_timer c);
     fulfilled := fulfilled s ++
       match call_promise c with Fulfilled v => [(now, v)] | _ => [] end |}.

(** The state after the main side has handled a worker message; a handler
    that throws leaves [returnValues] as it was. *)
Definition after_reply (s : state) (rest : list value) (data : value) : state :=
  {| returnValues :=
       match worker_onmessage (returnValues s) data with
       | Ok (rv, _) => rv
       | Throw _ _ => returnValues s
       end;
     to_workers := to_workers s; to_main := rest;
     timers := timers s; fulfilled := fulfilled s |}.

Inductive step : state -> state -> Prop :=
| step_post s m :
    (* [api.createDB], [api.downloadDB], [api.uploadDB], [executeQuerySync] *)
    posted_by_index m ->
    step s {| returnValues := returnValues s; to_workers := to_workers s ++ [m];
              to_main := to_main s; timers := timers s; fulfilled := fulfilled s |}
| step_executeQuery s gw now text values :
    step s (after_call s now (executeQuery gw (returnValues s) now text values))
| step_worker s before m after lib inst :
    (* some worker, whatever its [instance] and whatever the library does,
       handles a message posted to it *)
    to_workers s = before ++ m :: after ->
    step s {| returnValues := returnValues s; to_workers := before ++ after;
              to_main := to_main s ++ posted (Worker.trace (Worker.handle lib inst m).2);
              timers := timers s; fulfilled := fulfilled s |}
| step_reply s before data after :
    to_main s = before ++ data :: after ->
    step s (after_reply s (before ++ after) data)
| step_timer_resolve s before timestamp after v :
    timers s = before ++ timestamp :: after ->
    checkAgain (returnValues s) timestamp = Some v ->
    step s {| returnValues := returnValues s; to_workers := to_workers s;
              to_main := to_main s; timers := before ++ after;
              fulfilled := fulfilled s ++ [(timestamp, v)] |}
| step_timer_again s before timestamp after :
    timers s = before ++ timestamp :: after ->
    checkAgain (returnValues s) timestamp = None ->
    step s {| returnValues := returnValues s; to_workers := to_workers s;
              to_main := to_main s; timers := before ++ after ++ [timestamp];
              fulfilled := fulfilled s |}.

Inductive reachable : state -> Prop :=
| reachable_init : reachable init
| reachable_step s s' : reachable s -> step s s' -> reachable s'.

(** What holds in every state the two sides can reach. *)
Definition quiet (s : state) : Prop :=
  returnValues s = ∅ /\ to_main s = [] /\
  Forall posted_by_index (to_workers s) /\ fulfilled s = [].

End System.

(** ** The [api] object of [src/src/sqlite/index.js] (lines 9, 13-69) *)

Module Api.

(** [const workers = {}]: a plain object, which inherits the properties of
    [Object.prototype]; all of them are truthy and none is a worker. *)
Definition object_prototype_keys : list string :=
  ["constructor"; "__proto__"; "hasOwnProperty"; "isPrototypeOf";
   "propertyIsEnumerable"; "toLocaleString"; "toString"; "valueOf";
   "__defineGetter__"; "__defineSetter__"; "__lookupGetter__";
   "__lookupSetter__"]%string.

(** The main side: the own properties of [workers] (a worker is known by
    the order in which [new Worker] made it), the workers made and
    terminated so far, the messages posted to workers and the console. *)
Record state : Type := {
  workers : gmap string nat;
  spawned : nat;
  terminated : list nat;
  outbox : list (nat * value);
  console : list event
}.

Definition init : state :=
  {| workers := ∅; spawned := 0; terminated := []; outbox := []; console := [] |}.

(** [workers[name]] *)
Inductive slot : Type :=
| Own (worker : nat)
| Inherited
| Absent.

Definition lookup (ws : gmap string nat) (name : string) : slot :=
  match ws !! name with
  | Some w => Own w
  | None => if bool_decide (name ∈ object_prototype_keys) then Inherited else Absent
  end.

(** [initalizeWorker(name)] (lines 13-39): a worker is made; it is
    registered under [name] if [workers[name]] is falsy, and terminated
    otherwise. *)
Definition initalizeWorker (name : string) (st : state) : state :=
  let worker := spawned st in
  match lookup (workers st) name with
  | Absent =>
      {| workers := <[name := worker]> (workers st); spawned := S (spawned st);
         terminated := terminated st; outbox := outbox st; console := console st |}
  | _ =>
      {| workers := workers st; spawned := S (spawned st);
         terminated := terminated st ++ [worker]; outbox := outbox st;
         console := console st ++ [ConsoleError [VStr "InstantiationError: already taken"]] |}
  end.

(** [slot.postMessage(msg)], for what [workers[name]] yielded. *)
Definition post (sl : slot) (msg : value) (st : state) : result unit * state :=
  match sl with
  | Own w =>
      (Ok (), {| workers := workers st; spawned := spawned st; terminated := terminated st;
                 outbox := outbox st ++ [(w, msg)]; console := console st |})
  | Inherited => (TypeError "worker.postMessage is not a function", st)
  | Absent => (TypeError "Cannot read properties of undefined (reading 'postMessage')", st)
  end.

(** [api.createDB(name)] (lines 42-46); the property key of [name] is its
    string. *)
Definition createDB (name : value) (st : state) : result unit * state :=
  let st1 := initalizeWorker (ToString name) st in
  (* [this.getWorker(name)]: [workers[name]] if truthy, else [undefined] *)
  let worker := lookup (workers st1) (ToString name) in
  post worker (VObj [("action", VStr "createDB"); ("name", name)]) st1.

(** [api.downloadDB(name)] (lines 51-56) *)
Definition downloadDB (name : value) (st : state) : result unit * state :=
  match lookup (workers st) (ToString name) with
  | Absent => (Ok (), st)
  | worker => post worker (VObj [("action", VStr "downloadDB")]) st
  end.

(** [fileName.split(".")] *)
Fixpoint split_dot (s : string) : list string :=
  match s with
  | EmptyString => [EmptyString]
  | String c s' =>
      if Ascii.eqb c "."%char then EmptyString :: split_dot s'
      else match split_dot s' with
           | seg :: rest => String c seg :: rest
           | [] => [String c EmptyString]
           end
  end.

(** [api.uploadDB(fileName, arrayBuffer)] (lines 57-68).  Line 60 assigns to
    the identifier [worker], which the function does not declare: in module
    code the assignment throws unless the global object has a property of
    that name ([global_worker]). *)
Definition uploadDB (global_worker : bool) (fileName : string) (arrayBuffer : value)
    (st : state) : result unit * state :=
  let segments := split_dot fileName in
  let name := default EmptyString (head segments) in
  let extension := head (tail segments) in
  if bool_decide (extension = Some "sqlite3"%string) then
    if global_worker then
      match lookup (workers st) name with
      | Absent =>
          let st1 := initalizeWorker name st in
          (* [worker] still holds the [undefined] read on line 60 *)
          post Absent (VObj [("action", VStr "uploadDB"); ("name", VStr name);
                             ("arrayBuffer", arrayBuffer)]) st1
      | _ => (Ok (), st)
      end
    else (ReferenceError "worker", st)
  else
    (Ok (), {| workers := workers st; spawned := spawned st; terminated := terminated st;
               outbox := outbox st;
               console := console st ++ [ConsoleError [VStr "unsupported file type"]] |}).

(** An operation of the [api] object. *)
Inductive op : Type :=
| op_createDB (name : value)
| op_downloadDB (name : value)
| op_uploadDB (global_worker : bool) (fileName : string) (arrayBuffer : value).

Definition run (o : op) (st : state) : result unit * state :=
  match o with
  | op_createDB name => createDB name st
  | op_downloadDB name => downloadDB name st
  | op_uploadDB g fileName arrayBuffer => uploadDB g fileName arrayBuffer st
  end.

Definition run_all (ops : list op) (st : state) : state :=
  fold_left (fun st o => (run o st).2) ops st.

(** The registry is sound: a registered worker was made, is not
    terminated, and is registered under one name only. *)
Definition wf (st : state) : Prop :=
  (forall name w, workers st !! name = Some w -> (w < spawned st)%nat) /\
  (forall w, w ∈ terminated st -> (w < spawned st)%nat) /\
  (forall name w, workers st !! name = Some w -> w ∉ terminated st) /\
  (forall n1 n2 w, workers st !! n1 = Some w -> workers st !! n2 = Some w -> n1 = n2) /\
  (forall w msg, (w, msg) ∈ outbox st -> exists name, workers st !! name = Some w).

End Api.

(** ** Texts with placeholders *)

Module Placeholders.

(** A text in which the placeholders [$index+1], [$index+2], ... occur once
    each and in this order, between the given segments. *)
Fixpoint template (first : string) (rest : list string) (index : nat) : string :=
  match rest with
  | [] => first
  | seg :: rest' =>
      first +:+ String "$"%char (pretty (index + 1)%nat) +:+ template seg rest' (S index)
  end.

(** The same text with each placeholder replaced by the corresponding
    value between single quotes. *)
Fixpoint filled (first : string) (rest : list string) (items : list value) : string :=
  match rest, items with
  | seg :: rest', item :: items' =>
      first +:+ "'" +:+ ToString item +:+ "'" +:+ filled seg rest' items'
  | _, _ => first
  end.

End Placeholders.

(** ** The caller appended to [src/src/sqlite/index.js] (lines 113-150) *)

Module Animals.

(** The argument [{ sql, values }] each function hands to
    [SQLite.executeQuery]. *)
Definition insertAnimal (animal sound icon : value) : value * value :=
  (VStr "INSERT INTO animals(animal, sound, icon) VALUES ($1,$2,$3) RETURNING id;",
   VArr [animal; sound; icon]).

Definition deleteAnimal (id : value) : value * value :=
  (VStr "DELETE FROM animals WHERE id=$1;", VArr [id]).

Definition getAnimals (id : value) : value * value :=
  if truthy id
  then (VStr "SELECT * FROM animals WHERE id=$1;", VArr [id])
  else (VStr "SELECT * FROM animals;", VUndef).

End Animals.

(** ** The earlier worker of [src/README.md] (lines 455-533) *)

Module Legacy.
Import Worker.

(** [var db = null] is the [instance] field of the worker state.
    [createDatabase] and [uploadDatabase] (lines 511-533) have the bodies of
    their namesakes in [sqliteWorker.js], with the field [instance] for
    [db]. *)
Definition read_db : M (option Db) := fun st => (Fulfilled (instance st), st).

(** [({ instance, message }) => ...] applied to what the promise gave. *)
Definition destructure_instance_message (r : option (Db * string)) : M (Db * string) :=
  match r with
  | Some im => mret im
  | None => lift (TypeError "Cannot destructure property 'instance' of 'undefined' as it is undefined.")
  end.

(** A database object on the console, shown by its file name. *)
Definition db_object (db : Db) : value := VObj [("filename", VStr db)].

(** [onmessage] (lines 462-509).  The function is not [async]: a
    rejection here is an exception thrown by the handler, or by one of its
    [.then] callbacks.  The labels of the [switch] are those of
    [sqliteWorker.js].  On line 495 [sqlite3] is bound by nothing, so the
    [try] block of [case 'downloadDB'] throws before anything else. *)
Definition onmessage (lib : Library) (data : value) : M unit :=
  action ← lift (get data "action");
  match switch action with
  | case_createDB =>
      name ← lift (get data "name");
      r ← createDatabase lib name;
      '(db, message) ← destructure_instance_message r;
      write_instance db;;
      postMessage (VObj [("type", VStr "created"); ("message", VStr message)])
  | case_executeQuery =>
      sql ← lift (get data "sql");
      log [sql];;
      db ← read_db;
      match db with
      | None => lift (TypeError "Cannot read properties of null (reading 'exec')")
      | Some db =>
          emit (LibExec db sql (VStr "resultRows"));;
          result ← lift (db_exec lib db sql (VStr "resultRows"));
          (* [postMessage] clones what it is given *)
          cloned ← lift (clone_exec_result result);
          postMessage (VObj [("result", cloned); ("type", VStr "application/json")])
      end
  | case_uploadDB =>
      (* the [try] block covers the destructuring and the call only *)
      args ← try_catch
                (name ← lift (get data "name");
                 arrayBuffer ← lift (get data "arrayBuffer");
                 mret (Some (name, arrayBuffer)))
                (fun e => error [e];; mret None);
      match args with
      | None => mret ()
      | Some (name, arrayBuffer) =>
          r ← uploadDatabase lib name arrayBuffer;
          '(db, message) ← destructure_instance_message r;
          write_instance db;;
          log [VStr "uploadDB message"; VStr message];;
          log [VStr "uploadDB"; db_object db]
      end
  | case_downloadDB =>
      try_catch (lift (ReferenceError "sqlite3")) downloadDB_catch
  | case_default =>
      log [data]
  end.

Definition handle (lib : Library) (db : option Db) (data : value) : promise unit * state :=
  onmessage lib data {| instance := db; trace := [] |}.

End Legacy.

(** ** The [api] object of the draft [src/unnamed/part_000] (lines 9-82, 96-104) *)

Module DraftApi.

(** What [worker.onmessage] can hold: the handler of [createDB] (lines
    21-26), of [executeQuery] (lines 36-42) or of [downloadDB] (lines
    59-66); the first two close over the [resolve] of a promise. *)
Inductive handler : Type :=
| on_created (p : nat)
| on_result (p : nat)
| on_download.

(** What [worker.onerror] can hold: the handler of [createDB] (lines
    27-29), which rejects with [new Error(error)], or of [executeQuery]
    (lines 43-45), which rejects with the event itself. *)
Inductive error_handler : Type :=
| reject_wrapped (p : nat)
| reject_event (p : nat).

(** The promise an error handler closes over. *)
Definition rejects (e : error_handler) : nat :=
  match e with
  | reject_wrapped p | reject_event p => p
  end.

Record state : Type := {
  workers : gmap string nat;        (* own properties of [workers] *)
  spawned : nat;
  terminated : list nat;
  onmessage : gmap nat handler;     (* [worker.onmessage], per worker *)
  onerror : gmap nat error_handler; (* [worker.onerror], per worker *)
  promises : list (promise value);  (* the promises made so far *)
  outbox : list (nat * value);
  console : list event
}.

Definition init : state :=
  {| workers := ∅; spawned := 0; terminated := []; onmessage := ∅; onerror := ∅;
     promises := []; outbox := []; console := [] |}.

(** [resolve(v)] and [reject(e)]: a settled promise stays as it is. *)
Definition settle (p : nat) (outcome : promise value) (st : state) : state :=
  {| workers := workers st; spawned := spawned st; terminated := terminated st;
     onmessage := onmessage st; onerror := onerror st;
     promises :=
       match promises st !! p with
       | Some Pending => <[p := outcome]> (promises st)
       | _ => promises st
       end;
     outbox := outbox st; console := console st |}.

(** [new Promise(executor)]: the promise gets the next index. *)
Definition new_promise (initial : promise value) (st : state) : state :=
  {| workers := workers st; spawned := spawned st; terminated := terminated st;
     onmessage := onmessage st; onerror := onerror st;
     promises := promises st ++ [initial];
     outbox := outbox st; console := console st |}.

(** [initalizeWorker(name)] (lines 96-104) *)
Definition initalizeWorker (name : string) (st : state) : state :=
  let worker := spawned st in
  match Api.lookup (workers st) name with
  | Api.Absent =>
      {| workers := <[name := worker]> (workers st); spawned := S (spawned st);
         terminated := terminated st; onmessage := onmessage st; onerror := onerror st;
         promises := promises st; outbox := outbox st; console := console st |}
  | _ =>
      {| workers := workers st; spawned := S (spawned st);
         terminated := terminated st ++ [worker];
         onmessage := onmessage st; onerror := onerror st;
         promises := promises st; outbox := outbox st;
         console := console st ++ [ConsoleError [VStr "InstantiationError: already taken"]] |}
  end.

(** [worker.onmessage = h; worker.onerror = e; worker.postMessage(msg)] on
    the worker [w]. *)
Definition listen_and_post (w : nat) (h : handler) (e : error_handler) (msg : value)
    (st : state) : state :=
  {| workers := workers st; spawned := spawned st; terminated := terminated st;
     onmessage := <[w := h]> (onmessage st); onerror := <[w := e]> (onerror st);
     promises := promises st; outbox := outbox st ++ [(w, msg)]; console := console st |}.

Definition listen (w : nat) (h : handler) (e : error_handler) (st : state) : state :=
  {| workers := workers st; spawned := spawned st; terminated := terminated st;
     onmessage := <[w := h]> (onmessage st); onerror := <[w := e]> (onerror st);
     promises := promises st; outbox := outbox st; console := console st |}.

(** A parameter with the default ['default']. *)
Definition or_default (name : value) : value :=
  match name with
  | VUndef => VStr "default"
  | _ => name
  end.

(** [api.createDB(name = 'default')] (lines 17-32): the index of the
    promise it returns, and the state. *)
Definition createDB (name : value) (st : state) : nat * state :=
  let name := or_default name in
  let p := length (promises st) in
  let st1 := initalizeWorker (ToString name) st in
  match Api.lookup (workers st1) (ToString name) with
  | Api.Own w =>
      (p, listen_and_post w (on_created p) (reject_wrapped p)
            (VObj [("action", VStr "createDB"); ("name", name)])
            (new_promise Pending st1))
  | Api.Inherited =>
      (* the handlers land on an object that is no worker; [postMessage] is
         not a function of it and the executor throws *)
      (p, new_promise (Rejected "TypeError" "worker.postMessage is not a function") st1)
  | Api.Absent =>
      (p, new_promise (Rejected "TypeError"
                         "Cannot set properties of undefined (setting 'onmessage')") st1)
  end.

(** [api.executeQuery({ sql, values })] (lines 33-55).  The handlers are
    set before the placeholders are replaced; lines 46-52 are the statement
    of line 85 of [index.js], on [sql]. *)
Definition executeQuery (sql values : value) (st : state) : nat * state :=
  let p := length (promises st) in
  match Api.lookup (workers st) "default" with
  | Api.Own w =>
      match Index.executeQuery_queryString sql values with
      | Ok sql' =>
          (p, listen_and_post w (on_result p) (reject_event p)
                (VObj [("action", VStr "executeQuery"); ("sql", sql')])
                (new_promise Pending st))
      | Throw name message =>
          (p, listen w (on_result p) (reject_event p)
                (new_promise (Rejected name message) st))
      end
  | _ =>
      (p, new_promise (Rejected "TypeError"
                         "Cannot set properties of undefined (setting 'onmessage')") st)
  end.

(** [api.downloadDB(name = 'default')] (lines 56-69): [onmessage] is
    replaced, [onerror] is not. *)
Definition downloadDB (name : value) (st : state) : result unit * state :=
  match Api.lookup (workers st) (ToString (or_default name)) with
  | Api.Own w =>
      (Ok (),
       {| workers := workers st; spawned := spawned st; terminated := terminated st;
          onmessage := <[w := on_download]> (onmessage st); onerror := onerror st;
          promises := promises st;
          outbox := outbox st ++ [(w, VObj [("action", VStr "downloadDB")])];
          console := console st |})
  | Api.Inherited => (TypeError "worker.postMessage is not a function", st)
  | Api.Absent => (Ok (), st)
  end.

(** The [message] event of worker [w] with [data]: its [onmessage] runs. *)
Definition deliver (w : nat) (data : value) (st : state) : state :=
  match onmessage st !! w with
  | Some (on_created p) =>
      match get data "type", get data "message" with
      | Ok type, Ok message =>
          if is_str type "created" then settle p (Fulfilled message) st else st
      | _, _ => st
      end
  | Some (on_result p) =>
      match get data "type", get data "result" with
      | Ok type, Ok result =>
          if is_str type "application/json" then settle p (Fulfilled result) st else st
      | _, _ => st
      end
  | Some on_download =>
      match get data "type" with
      | Ok type =>
          if is_str type "application/vnd.sqlite3"
          then {| workers := workers st; spawned := spawned st; terminated := terminated st;
                  onmessage := onmessage st; onerror := onerror st;
                  promises := promises st; outbox := outbox st;
                  console := console st ++ [Broadcast "download_channel" data] |}
          else st
      | _ => st
      end
  | None => st
  end.

(** The [error] event of worker [w], an [ErrorEvent] given by the name and
    message of the error it reports: its [onerror] runs.  The handler of
    [createDB] rejects with [new Error(error)], whose message is the string
    of the event; the handler of [executeQuery] rejects with the event,
    written here by the name and message it carries. *)
Definition fail (w : nat) (name message : string) (st : state) : state :=
  match onerror st !! w with
  | Some (reject_wrapped p) => settle p (Rejected "Error" "[object ErrorEvent]") st
  | Some (reject_event p) => settle p (Rejected name message) st
  | None => st
  end.

(** What workers can do to the main side. *)
Inductive incoming : Type :=
| message_event (w : nat) (data : value)
| error_event (w : nat) (name message : string).

(** What the worker of [sqliteWorker.js] can cause on the main side: a
    [message] event with something one of its handler runs posts, or an
    [error] event. *)
Definition from_sqliteWorker (i : incoming) : Prop :=
  match i with
  | message_event _ data =>
      exists lib inst m, data ∈ posted (Worker.trace (Worker.handle lib inst m).2)
  | error_event _ _ _ => True
  end.

Definition receive (i : incoming) (st : state) : state :=
  match i with
  | message_event w data => deliver w data st
  | error_event w name message => fail w name message st
  end.

Definition receive_all (events : list incoming) (st : state) : state :=
  fold_left (fun st i => receive i st) events st.

(** Every handler closes over a promise that was made. *)
Definition handlers_sound (st : state) : Prop :=
  (forall w p, onmessage st !! w = Some (on_created p) -> (p < length (promises st))%nat) /\
  (forall w p, onmessage st !! w = Some (on_result p) -> (p < length (promises st))%nat) /\
  (forall w e, onerror st !! w = Some e -> (rejects e < length (promises st))%nat).

(** No handler can settle the promise [p]. *)
Definition orphan (p : nat) (st : state) : Prop :=
  (forall w, onmessage st !! w <> Some (on_created p)) /\
  (forall w, onmessage st !! w <> Some (on_result p)) /\
  (forall w e, onerror st !! w = Some e -> rejects e <> p).

End DraftApi.

(** ** Queries on the pool of the README draft (lines 263-269) *)

Module PoolQueries.
Import Pool.

(** [runQuery(query, params)]: the instance the query ran on, if it ran,
    and the pool afterwards.  [query_ok = false] is a statement that
    throws, in [prepare] or in [all]: line 267 is then not reached. *)
Definition runQuery (init_ok query_ok : bool) (st : state) : option nat * state :=
  match getDbConnection init_ok st with
  | (Some (Some db), st1) =>
      if query_ok then (Some db, releaseDbConnection db st1) else (None, st1)
  | (_, st1) => (None, st1)
  end.

(** [n] queries one after the other, each successful. *)
Fixpoint sequential (n : nat) (st : state) : list nat * state :=
  match n with
  | O => ([], st)
  | S n' =>
      let '(used, st1) := sequential n' st in
      match runQuery true true st1 with
      | (Some db, st2) => (used ++ [db], st2)
      | (None, st2) => (used, st2)
      end
  end.

(** The pool once [n] queries have run one after the other. *)
Definition after (n : nat) : state :=
  {| dbPool := seq 0 (Nat.min n MAX_POOL_SIZE); created := Nat.min n MAX_POOL_SIZE;
     closed := [] |}.

End PoolQueries.

(** ** The worker pool of the README draft (lines 382-404) *)

Module WorkerPool.

(** [workers]: each worker by the truth value of its [busy] property
    ([undefined] on a new worker). *)
Abbreviation state := (list bool).

Definition WORKER_COUNT : nat := 4.

(** [createWorker()] (lines 385-389): the new worker, named by its index. *)
Definition createWorker (st : state) : nat * state := (length st, st ++ [false]).

(** [workers.find(worker => !worker.busy)] *)
Fixpoint find_idle (st : state) (i : nat) : option nat :=
  match st with
  | [] => None
  | busy :: rest => if busy then find_idle rest (S i) else Some i
  end.

(** [getWorker()] (lines 391-396) *)
Definition getWorker (st : state) : nat * state :=
  match find_idle st 0 with
  | None => createWorker st
  | Some i => (i, <[i := true]> st)
  end.

(** [releaseWorker(worker)] (lines 398-400) *)
Definition releaseWorker (worker : nat) (st : state) : state := <[worker := false]> st.

(** The loop of lines 402-404. *)
Definition init : state := Nat.iter WORKER_COUNT (fun st => (createWorker st).2) [].

End WorkerPool.

(** * Properties *)

(** ** Values and strings *)

Section value_induction.
Variable P : value -> Prop.
Hypothesis P_undef : P VUndef.
Hypothesis P_null : P VNull.
Hypothesis P_bool : forall b, P (VBool b).
Hypothesis P_num : forall n, P (VNum n).
Hypothesis P_str : forall s, P (VStr s).
Hypothesis P_arr : forall elems, Forall P elems -> P (VArr elems).
Hypothesis P_obj : forall fields, Forall (fun kv => P kv.2) fields -> P (VObj fields).
Hypothesis P_err : forall name message, P (VErr name message).
Hypothesis P_buf : forall n, P (VBuf n).
Hypothesis P_blob : forall mime content, P content -> P (VBlob mime content).

(** Induction through the arrays and objects nested in a value. *)
Fixpoint value_nested_ind (v : value) : P v :=
  match v with
  | VUndef => P_undef
  | VNull => P_null
  | VBool b => P_bool b
  | VNum n => P_num n
  | VStr s => P_str s
  | VArr elems =>
      P_arr elems
        ((fix all (l : list value) : Forall P l :=
            match l with
            | [] => List.Forall_nil _
            | x :: rest => List.Forall_cons _ x rest (value_nested_ind x) (all rest)
            end) elems)
  | VObj fields =>
      P_obj fields
        ((fix all (l : list (string * value)) : Forall (fun kv => P kv.2) l :=
            match l with
            | [] => List.Forall_nil _
            | kv :: rest => List.Forall_cons _ kv rest (value_nested_ind kv.2) (all rest)
            end) fields)
  | VErr name message => P_err name message
  | VBuf n => P_buf n
  | VBlob mime content => P_blob mime content (value_nested_ind content)
  end.
End value_induction.

(** A deep copy of a value without identity is the value. *)
Lemma structuredClone_id (v : value) : structuredClone v = v.
Proof.
  induction v using value_nested_ind; simpl; try reflexivity.
  - f_equal. induction H as [|x l Hx _ IH]; simpl; [reflexivity|].
    by rewrite Hx, IH.
  - f_equal. induction H as [|[k x] l Hx _ IH]; simpl in *; [reflexivity|].
    by rewrite Hx, IH.
  - by rewrite IHv.
Qed.

(** Up to 2^53 an integer prints in full. *)
Lemma Number_toString_safe (n : Z) :
  0 <= n < 2 ^ 53 -> Number_toString n = pretty n.
Proof.
  intros [Hlo Hhi]. unfold Number_toString.
  destruct (n =? 0) eqn:E0; [by apply Z.eqb_eq in E0 as ->|].
  apply Z.eqb_neq in E0.
  destruct (n <? 0) eqn:Eneg; [apply Z.ltb_lt in Eneg; lia|].
  assert (Hlog : Z.log2 n <= 52).
  { assert (Z.log2 n < 53) by (apply Z.log2_lt_pow2; lia). lia. }
  unfold positive_toString, round_to_double.
  rewrite (proj2 (Z.leb_le _ _) Hlog).
  rewrite (proj2 (Z.leb_le _ _) Hlog).
  destruct (2 ^ 1024 <=? n) eqn:Ebig; [|reflexivity].
  apply Z.leb_le in Ebig.
  assert (2 ^ 53 < 2 ^ 1024) by (apply Z.pow_lt_mono_r; lia). lia.
Qed.

Example Number_toString_examples :
  map Number_toString
    [0; -42; 1700000000000; 2 ^ 53; 2 ^ 60; 2 ^ 64; 123456789012345680000;
     10 ^ 21; 10 ^ 21 - 1; 2 ^ 70; - (10 ^ 22); 15 * 10 ^ 20] =
  ["0"; "-42"; "1700000000000"; "9007199254740992"; "1152921504606847000";
   "18446744073709552000"; "123456789012345680000";
   "1e+21"; "1e+21"; "1.1805916207174113e+21"; "-1e+22"; "1.5e+21"]%string.
Proof. by vm_compute. Qed.

Example ToString_examples :
  map ToString
    [VArr [VNum 1; VNull; VArr [VStr "a"; VUndef]]; VErr "TypeError" "";
     VErr "Error" "not working"; VObj [("id", VNum 1)]; VBool true] =
  ["1,,a,"; "TypeError"; "Error: not working"; "[object Object]"; "true"]%string.
Proof. by vm_compute. Qed.

Lemma split_first_cons (pat : string) (c : ascii) (s : string) :
  split_first pat (String c s) =
  if String.prefix pat (String c s)
  then Some (EmptyString,
             String.substring (String.length pat) (String.length (String c s)) (String c s))
  else match split_first pat s with
       | Some (pre, post) => Some (String c pre, post)
       | None => None
       end.
Proof. reflexivity. Qed.

Lemma prefix_cons (a : ascii) (p : string) (c : ascii) (s : string) :
  String.prefix (String a p) (String c s) =
  if ascii_dec a c then String.prefix p s else false.
Proof. reflexivity. Qed.

Lemma prefix_empty (s : string) : String.prefix EmptyString s = true.
Proof. by destruct s. Qed.

(** A text without a dollar has no occurrence of a pattern that starts
    with one. *)
Lemma split_first_dollar (s d : string) :
  split_first "$" s = None -> split_first (String "$"%char d) s = None.
Proof.
  induction s as [|c s IH].
  - intros _. reflexivity.
  - rewrite !split_first_cons, !prefix_cons, prefix_empty.
    destruct (ascii_dec "$" c) as [Hc|Hc]; [discriminate|].
    destruct (split_first "$" s) as [[pre post]|]; [discriminate|].
    intros _. by rewrite IH.
Qed.

Lemma indexOf_none (s pat : string) :
  indexOf s pat = -1 <-> split_first pat s = None.
Proof.
  unfold indexOf. destruct (split_first pat s) as [[pre post]|]; split; try done; lia.
Qed.

Lemma replace_no_dollar (s d repl : string) :
  indexOf s "$" = -1 -> replace s (String "$"%char d) repl = s.
Proof.
  intros H%indexOf_none. unfold replace. by rewrite split_first_dollar.
Qed.

Lemma replacePlaceholders_no_dollar (items : list value) (index : nat) (q : string) :
  indexOf q "$" = -1 -> Index.replacePlaceholders items index q = q.
Proof.
  intros Hq. revert index. induction items as [|item rest IH]; intros index; simpl.
  - reflexivity.
  - change ("$" +:+ pretty (index + 1)%nat) with (String "$"%char (pretty (index + 1)%nat)).
    rewrite replace_no_dollar by exact Hq. apply IH.
Qed.

Example replace_first_only :
  replace "a=$1 and b=$1" "$1" "'x'" = "a='x' and b=$1".
Proof. reflexivity. Qed.

Example replace_dollar_patterns :
  replace "id=$1;" "$1" "'$&$$'" = "id='$1$';".
Proof. reflexivity. Qed.

Example replacePlaceholders_example :
  Index.replacePlaceholders [VStr "Cat"; VNum 7] 0 "VALUES ($1,$2)" = "VALUES ('Cat','7')".
Proof. vm_compute. reflexivity. Qed.

(** ** The worker *)

Section worker_facts.
Import Worker.

Lemma is_str_true (v : value) (s : string) : is_str v s = true <-> v = VStr s.
Proof.
  destruct v; simpl; try (split; [discriminate | congruence]).
  rewrite String.eqb_eq. split; congruence.
Qed.

Lemma is_str_false (v : value) (s : string) : is_str v s = false <-> v <> VStr s.
Proof.
  rewrite <- is_str_true. destruct (is_str v s); split; congruence.
Qed.

(** Once one property of a value has been read, any other can be. *)
Lemma get_defined (o : value) (k k' : string) (v : value) :
  get o k = Ok v -> exists v', get o k' = Ok v'.
Proof. destruct o; simpl; intros H; try discriminate; eauto. Qed.

(** An invocation without an argument never schedules a retry. *)
Lemma checkAgain_undefined (inst : option Db) :
  checkAgain inst VUndef =
  match inst with Some db => Resolve db | None => Reject "Error" "not working" end.
Proof. by destruct inst. Qed.

Lemma checkAgain_loop_settles (inst : nat -> option Db) (k n : nat) :
  checkAgain_loop inst k n =
  (match inst k with
   | Some db => Fulfilled db
   | None => Rejected "Error" "not working"
   end, 0%nat).
Proof. destruct n; simpl; rewrite checkAgain_undefined; by destruct (inst k). Qed.

(** The counter is 0 at each invocation: given a positive argument, the
    guard would hold every time. *)
Lemma checkAgain_positive (t : Z) : 1 <= t -> checkAgain None (VNum t) = Again.
Proof.
  intros Ht. unfold checkAgain, js_gt. destruct (0 <? t) eqn:E; [reflexivity|lia].
Qed.

Lemma await_getInstance_settles (tries : value) (st : state) :
  await_getInstance tries st =
  (match instance st with
   | Some db => Fulfilled db
   | None => Rejected "Error" "not working"
   end, {| instance := instance st; trace := trace st |}).
Proof.
  unfold await_getInstance, getInstance. rewrite checkAgain_loop_settles.
  simpl. by rewrite app_nil_r.
Qed.

End worker_facts.

Section worker_claims.
Import Worker.

(** C3, as stated, fails: with [tries = 1] and [instance] null throughout,
    [getInstance] does not poll forever. *)
Lemma C3_getInstance_polls_forever_refuted :
  ~ (forall tries : Z, 1 <= tries ->
       forall n : nat, (getInstance (VNum tries) (fun _ => None) n).1 = Pending).
Proof. intros H. specialize (H 1 ltac:(lia) 3%nat). discriminate H. Qed.

(** C3, amended: [tryCount] is 0 at every invocation of [checkAgain], but
    the parameter [tries] of [checkAgain] shadows the argument of
    [getInstance] and every invocation passes no argument, so the guard
    compares [undefined] with 0 and is false.  For every [tries], and
    whatever [instance] becomes later, [getInstance] settles during the
    call and schedules no timer: it resolves with [instance] when it is
    set, and rejects with the error "not working" when it is null. *)
Theorem C3_getInstance_settles_at_once (tries : value) (inst : nat -> option Db) (n : nat) :
  js_gt VUndef (VNum 0) = false /\
  getInstance tries inst n =
  (match inst 0%nat with
   | Some db => Fulfilled db
   | None => Rejected "Error" "not working"
   end, 0%nat).
Proof. split; [reflexivity | apply checkAgain_loop_settles]. Qed.

(** C4: every 'downloadDB' message takes the [catch] branch: the [try]
    block throws the ReferenceError of the unbound [sqlite3]; its message
    does not contain "SQLITE_NOMEM", so the handler prints the error to the
    console and posts nothing: no blob is sent. *)
Theorem C4_downloadDB_only_prints (lib : Library) (inst : option Db) (data : value) :
  get data "action" = Ok (VStr "downloadDB") ->
  (forall st, downloadDB_try downloadDB_scope st =
              (Rejected "ReferenceError" "sqlite3 is not defined", st)) /\
  indexOf "sqlite3 is not defined" "SQLITE_NOMEM" = -1 /\
  handle lib inst data =
    (Fulfilled (),
     {| instance := inst;
        trace := [ConsoleError [VErr "ReferenceError" "sqlite3 is not defined"]] |}) /\
  posted (trace (handle lib inst data).2) = [].
Proof.
  intros Hact.
  assert (Hrun : handle lib inst data =
    (Fulfilled (),
     {| instance := inst;
        trace := [ConsoleError [VErr "ReferenceError" "sqlite3 is not defined"]] |})).
  { unfold handle, onmessage, mbind, M_bind, lift. rewrite Hact. reflexivity. }
  split; [intros st; reflexivity|].
  split; [by vm_compute|].
  split; [exact Hrun | by rewrite Hrun].
Qed.

Lemma C4_downloadDB_only_prints_witness :
  let data := VObj [("action", VStr "downloadDB")] in
  let lib := {| sqlite3InitModule := Throw "Error" "no wasm";
                db_exec := fun _ _ _ => Ok ExecDb |} in
  get data "action" = Ok (VStr "downloadDB") /\
  posted (trace (handle lib (Some "/default.sqlite3"%string) data).2) = [].
Proof.
  split; [reflexivity|].
  apply (C4_downloadDB_only_prints _ _ (VObj [("action", VStr "downloadDB")])).
  reflexivity.
Defined.

Lemma switch_default (action : value) :
  switch action = case_default <-> action ∉ known_actions.
Proof.
  unfold switch, known_actions.
  destruct (is_str action "createDB") eqn:E1;
    [apply is_str_true in E1; subst; split; [discriminate | intros H; exfalso; apply H; set_solver]|].
  destruct (is_str action "uploadDB") eqn:E2;
    [apply is_str_true in E2; subst; split; [discriminate | intros H; exfalso; apply H; set_solver]|].
  destruct (is_str action "downloadDB") eqn:E3;
    [apply is_str_true in E3; subst; split; [discriminate | intros H; exfalso; apply H; set_solver]|].
  destruct (is_str action "executeQuery") eqn:E4;
    [apply is_str_true in E4; subst; split; [discriminate | intros H; exfalso; apply H; set_solver]|].
  apply is_str_false in E1, E2, E3, E4.
  split; [|done]. intros _ Hin.
  rewrite !elem_of_cons, elem_of_nil in Hin. intuition congruence.
Qed.

End worker_claims.

(** *** Handler runs, by cases *)

Section worker_runs.
Import Worker.

Ltac unfold_M :=
  unfold mbind, M_bind, mret, M_ret, lift, emit, log, error, postMessage,
    write_instance, try_catch, catch_print, destructure_db_message,
    createDatabase, uploadDatabase, downloadDB_try, downloadDB_catch, resolve,
    clone_exec_result, TypeError, ReferenceError in *.

(* split on the innermost scrutinee of the goal *)
Ltac case_step :=
  match goal with
  | |- context [match ?x with _ => _ end] =>
      lazymatch x with
      | context [match _ with _ => _ end] => fail
      | _ => destruct x eqn:?
      end
  end.

Ltac run_M :=
  repeat (simpl in *; unfold_M; simpl in *;
          try rewrite await_getInstance_settles in *;
          try case_step).







Lemma switch_executeQuery (action : value) :
  switch action = case_executeQuery -> action = VStr "executeQuery".
Proof.
  unfold switch. repeat case_match; try discriminate. intros _. by apply is_str_true.
Qed.

(** The reply of the [executeQuery] case is the only message a run posts. *)
Lemma handle_posted lib inst data m :
  m ∈ posted (trace (handle lib inst data).2) ->
  exists timestamp result,
    get data "action" = Ok (VStr "executeQuery") /\
    get data "timestamp" = Ok timestamp /\
    m = VObj [("timestamp", timestamp); ("result", result);
              ("type", VStr "application/json")].
Proof.
  unfold handle, onmessage. run_M.
  all: try by intros ?%elem_of_nil.
  intros ->%list_elem_of_singleton.
  match goal with H : switch _ = case_executeQuery |- _ =>
    apply switch_executeQuery in H; subst end.
  eauto.
Qed.








(** What the four cases do first. *)
Lemma handle_opens_with_init lib inst data :
  get data "action" = Ok (VStr "createDB") \/ get data "action" = Ok (VStr "uploadDB") ->
  exists rest, trace (handle lib inst data).2 = LibInit :: rest.
Proof.
  intros H.
  assert (Hread : exists action, get data "action" = Ok action) by (destruct H; eauto).
  destruct Hread as [action Hread].
  destruct (get_defined _ _ "name" _ Hread) as [name Hname].
  destruct (get_defined _ _ "arrayBuffer" _ Hread) as [arrayBuffer Hbuf].
  unfold handle, onmessage. unfold_M.
  destruct H as [-> | ->]; rewrite ?Hname, ?Hbuf; simpl; run_M; eauto.
Qed.

Lemma handle_executeQuery_logs_sql lib inst data :
  get data "action" = Ok (VStr "executeQuery") ->
  exists sql rest,
    get data "sql" = Ok sql /\ trace (handle lib inst data).2 = ConsoleLog [sql] :: rest.
Proof.
  intros Hact. destruct (get_defined _ _ "sql" _ Hact) as [sql Hsql].
  destruct (get_defined _ _ "returnValue" _ Hact) as [returnValue Hret].
  exists sql. unfold handle, onmessage. unfold_M. rewrite Hact, Hsql, Hret. simpl.
  run_M; eauto.
Qed.

(** A run of one of the four cases is never the run of the [default]
    case. *)
Lemma handle_known_action lib inst data action :
  get data "action" = Ok action -> action ∈ known_actions ->
  handle lib inst data <> (Fulfilled (), {| instance := inst; trace := [ConsoleLog [data]] |}).
Proof.
  intros Hact Hin Hrun. unfold known_actions in Hin.
  rewrite !elem_of_cons, elem_of_nil in Hin.
  destruct Hin as [-> | [-> | [-> | [-> | []]]]].
  - destruct (handle_opens_with_init lib inst data (or_introl Hact)) as [rest Hrest].
    rewrite Hrun in Hrest. discriminate.
  - destruct (handle_opens_with_init lib inst data (or_intror Hact)) as [rest Hrest].
    rewrite Hrun in Hrest. discriminate.
  - revert Hrun. unfold handle, onmessage. unfold_M. rewrite Hact. discriminate.
  - destruct (get_defined _ _ "sql" _ Hact) as [sql Hsql].
    destruct (get_defined _ _ "returnValue" _ Hact) as [returnValue Hret].
    revert Hrun. unfold handle, onmessage. unfold_M. rewrite Hact, Hsql, Hret. simpl.
    run_M; discriminate.
Qed.

(** C5, as stated, fails: a message whose data is [null] has none of the
    four actions, and the handler does not log it. *)
Lemma C5_null_message_is_not_logged :
  ~ (forall (lib : Library) (inst : option Db) (data : value),
       (forall action, action ∈ known_actions -> get data "action" <> Ok action) ->
       trace (handle lib inst data).2 = [ConsoleLog [data]]).
Proof.
  intros H.
  specialize (H {| sqlite3InitModule := Throw "Error" "no wasm";
                   db_exec := fun _ _ _ => Ok ExecDb |} None VNull).
  discriminate H. intros action _. discriminate.
Qed.

(** C5, amended: a message whose data is not [null] or [undefined] is
    dispatched on its [action] field alone, and the cases are exactly the
    four actions: the run is that of the [default] case, a single log of the
    data with no library call and no reply, if and only if the action is
    none of the four; the 'createDB' and 'uploadDB' cases start by
    initialising the library, the 'downloadDB' case prints the
    ReferenceError, the 'executeQuery' case starts by logging the SQL.  For
    [null] and [undefined] reading the [action] field throws: the handler
    rejects with that TypeError and logs nothing. *)
Theorem C5_dispatch_on_action (lib : Library) (inst : option Db) (data : value) :
  (forall n m, get data "action" = Throw n m ->
     (data = VUndef \/ data = VNull) /\
     handle lib inst data = (Rejected n m, {| instance := inst; trace := [] |})) /\
  (forall action, get data "action" = Ok action ->
     (data <> VUndef /\ data <> VNull) /\
     (switch action = case_default <-> action ∉ known_actions) /\
     (handle lib inst data =
        (Fulfilled (), {| instance := inst; trace := [ConsoleLog [data]] |})
      <-> action ∉ known_actions) /\
     (action ∉ known_actions ->
        posted (trace (handle lib inst data).2) = [] /\
        List.filter is_lib_call (trace (handle lib inst data).2) = []) /\
     (action = VStr "createDB" \/ action = VStr "uploadDB" ->
        exists rest, trace (handle lib inst data).2 = LibInit :: rest) /\
     (action = VStr "downloadDB" ->
        trace (handle lib inst data).2 =
          [ConsoleError [VErr "ReferenceError" "sqlite3 is not defined"]]) /\
     (action = VStr "executeQuery" ->
        exists sql rest,
          get data "sql" = Ok sql /\
          trace (handle lib inst data).2 = ConsoleLog [sql] :: rest)).
Proof.
  split.
  - intros n m Hact. split.
    + destruct data; try discriminate; auto.
    + unfold handle, onmessage. unfold_M. by rewrite Hact.
  - intros action Hact.
    assert (Hdefault : action ∉ known_actions ->
      handle lib inst data =
        (Fulfilled (), {| instance := inst; trace := [ConsoleLog [data]] |})).
    { intros Hdef%switch_default.
      unfold handle, onmessage. unfold_M. by rewrite Hact, Hdef. }
    split; [split; intros ->; discriminate|].
    split; [apply switch_default|].
    split; [|split; [|split; [|split]]].
    + split; [|exact Hdefault].
      intros Hrun Hin. by apply (handle_known_action lib inst data action).
    + intros Hdef. by rewrite (Hdefault Hdef).
    + intros [-> | ->]; apply handle_opens_with_init; auto.
    + intros ->. unfold handle, onmessage. unfold_M. by rewrite Hact.
    + intros ->. by apply handle_executeQuery_logs_sql.
Qed.

Lemma C5_dispatch_on_action_witness :
  let data := VObj [("timestamp", VNum 5); ("type", VStr "exec");
                    ("sql", VStr "SELECT 1"); ("returnValue", VStr "resultRows")] in
  let lib := {| sqlite3InitModule := Throw "Error" "no wasm";
                db_exec := fun _ _ _ => Ok ExecDb |} in
  get data "action" = Ok VUndef /\
  (VUndef ∉ known_actions) /\
  handle lib None data = (Fulfilled (), {| instance := None; trace := [ConsoleLog [data]] |}) /\
  get VNull "action" = Throw "TypeError" "Cannot read properties of null (reading 'action')" /\
  handle lib None VNull =
    (Rejected "TypeError" "Cannot read properties of null (reading 'action')",
     {| instance := None; trace := [] |}).
Proof.
  intros data lib.
  assert (Hnot : VUndef ∉ known_actions).
  { unfold known_actions. rewrite !elem_of_cons, elem_of_nil. intuition discriminate. }
  split; [reflexivity|]. split; [exact Hnot|]. split; [|split; [reflexivity|]].
  - exact (proj2 (proj1 (proj2 (proj2
             (proj2 (C5_dispatch_on_action lib None data) VUndef eq_refl)))) Hnot).
  - exact (proj2 (proj1 (C5_dispatch_on_action lib None VNull) _ _ eq_refl)).
Defined.

End worker_runs.

Section worker_errors.
Import Worker.




End worker_errors.

(** ** The module bodies *)

Lemma index_module_body_api (window_Worker : value) (lib : Library) :
  (Index.module_body window_Worker lib).2 = Index.Api ->
  truthy window_Worker = true /\ exists sqlite3, sqlite3InitModule lib = Ok sqlite3.
Proof.
  unfold Index.module_body.
  destruct (truthy window_Worker); [|discriminate].
  destruct (sqlite3InitModule lib) as [sqlite3|]; [eauto|discriminate].
Qed.

Lemma draft_module_body_api (window_Worker : value) (lib : Library) :
  (Draft.module_body window_Worker lib).2 = Draft.Api ->
  truthy window_Worker = true /\ exists sqlite3, sqlite3InitModule lib = Ok sqlite3.
Proof.
  unfold Draft.module_body.
  destruct (truthy window_Worker); [|discriminate].
  destruct (sqlite3InitModule lib) as [sqlite3|]; [eauto|discriminate].
Qed.

(** C7: the default export of [index.js] is [api] only if [window.Worker]
    exists and the awaited [sqlite3InitModule] succeeds; if the call
    rejects, or workers are unsupported, an error is printed and the
    default export is the initial empty object, which has no methods.  The
    draft [part_000] gates its export in the same way. *)
Theorem C7_default_export_gated (window_Worker : value) (lib : Library) :
  ((Index.module_body window_Worker lib).2 = Index.Api ->
     truthy window_Worker = true /\ exists sqlite3, sqlite3InitModule lib = Ok sqlite3) /\
  (truthy window_Worker = false \/ (exists n m, sqlite3InitModule lib = Throw n m) ->
     (Index.module_body window_Worker lib).2 = Index.EmptyObject /\
     Index.methods (Index.module_body window_Worker lib).2 = [] /\
     existsb is_error_print (Index.module_body window_Worker lib).1 = true) /\
  ((Draft.module_body window_Worker lib).2 = Draft.Api ->
     truthy window_Worker = true /\ exists sqlite3, sqlite3InitModule lib = Ok sqlite3) /\
  (truthy window_Worker = false \/ (exists n m, sqlite3InitModule lib = Throw n m) ->
     (Draft.module_body window_Worker lib).2 = Draft.EmptyObject /\
     Draft.methods (Draft.module_body window_Worker lib).2 = [] /\
     existsb is_error_print (Draft.module_body window_Worker lib).1 = true) /\
  (Draft.module_body window_Worker lib).1 = (Index.module_body window_Worker lib).1 /\
  ((Draft.module_body window_Worker lib).2 = Draft.Api <->
   (Index.module_body window_Worker lib).2 = Index.Api).
Proof.
  split; [apply index_module_body_api|].
  split.
  { unfold Index.module_body. intros [Hw|(n & m & Hinit)].
    - rewrite Hw. by repeat split.
    - rewrite Hinit. destruct (truthy window_Worker); by repeat split. }
  split; [apply draft_module_body_api|].
  split.
  { unfold Draft.module_body. intros [Hw|(n & m & Hinit)].
    - rewrite Hw. by repeat split.
    - rewrite Hinit. destruct (truthy window_Worker); by repeat split. }
  unfold Draft.module_body, Index.module_body.
  destruct (truthy window_Worker); [|by split].
  destruct (sqlite3InitModule lib) as [sqlite3|]; [|by split].
  destruct (libVersion sqlite3); by split.
Qed.

Lemma C7_default_export_gated_witness :
  let lib := {| sqlite3InitModule := Throw "RuntimeError" "wasm aborted";
                db_exec := fun _ _ _ => Ok ExecDb |} in
  (exists n m, sqlite3InitModule lib = Throw n m) /\
  (Index.module_body (VObj []) lib).2 = Index.EmptyObject /\
  (Draft.module_body VUndef lib).2 = Draft.EmptyObject.
Proof.
  intros lib.
  assert (Hrej : exists n m, sqlite3InitModule lib = Throw n m) by (do 2 eexists; reflexivity).
  split; [exact Hrej|]. split.
  - exact (proj1 (proj1 (proj2 (C7_default_export_gated (VObj []) lib)) (or_intror Hrej))).
  - exact (proj1 (proj1 (proj2 (proj2 (proj2 (C7_default_export_gated VUndef lib))))
                   (or_introl eq_refl))).
Defined.

(** ** The pool of the README draft *)

Section pool_facts.
Import Pool.

(** Pushing and popping at once hands back what was pushed and leaves the
    pool as it was. *)
Lemma resume_returns_pushed (db : nat) (st : state) :
  getDbConnection_resume db st = (Some db, st).
Proof.
  unfold getDbConnection_resume, pop, push. simpl.
  rewrite last_snoc, removelast_last. by destruct st.
Qed.

Lemma wf_fresh (st : state) : wf st -> created st ∉ dbPool st.
Proof.
  unfold wf. rewrite Forall_forall. intros H Hin. specialize (H _ Hin). lia.
Qed.

Lemma wf_init : wf init.
Proof. constructor. Qed.

Lemma wf_getDbConnection (init_ok : bool) (st : state) :
  wf st -> wf (getDbConnection init_ok st).2.
Proof.
  unfold wf, getDbConnection. intros H.
  destruct (length (dbPool st) <? MAX_POOL_SIZE)%nat.
  - destruct init_ok; unfold createDbInstance; [|exact H].
    rewrite resume_returns_pushed. simpl.
    eapply Forall_impl; [exact H|]. simpl. lia.
  - simpl. destruct (dbPool st) as [|x l] using rev_ind; [constructor|].
    rewrite removelast_last. by apply Forall_app in H as [H _].
Qed.

Lemma wf_releaseDbConnection (db : nat) (st : state) :
  wf st -> (db < created st)%nat -> wf (releaseDbConnection db st).
Proof.
  unfold wf, releaseDbConnection. intros H Hdb.
  destruct (length (dbPool st) <? MAX_POOL_SIZE)%nat; simpl; [|exact H].
  apply Forall_app. split; [exact H|]. by constructor.
Qed.

(** C8: whenever [dbPool.length < MAX_POOL_SIZE], [getDbConnection] makes a
    new instance, pushes it and pops it back at once: the value returned is
    the new instance, none of the instances in the pool is handed out, and
    the pool is left as it was; the same holds on whatever pool the call
    finds when it resumes after the [await]. *)
Theorem C8_pool_hands_out_new_instance (st : state) :
  wf st ->
  (length (dbPool st) < MAX_POOL_SIZE)%nat ->
  (getDbConnection true st).1 = Some (Some (created st)) /\
  (created st ∉ dbPool st) /\
  dbPool (getDbConnection true st).2 = dbPool st /\
  created (getDbConnection true st).2 = S (created st) /\
  (forall db st', getDbConnection_resume db st' = (Some db, st')).
Proof.
  intros Hwf Hlen. unfold getDbConnection.
  apply Nat.ltb_lt in Hlen. rewrite Hlen. unfold createDbInstance.
  rewrite resume_returns_pushed. simpl.
  repeat split; [by apply wf_fresh | apply resume_returns_pushed].
Qed.

Lemma C8_pool_hands_out_new_instance_witness :
  let st := releaseDbConnection 1 (releaseDbConnection 0
              (getDbConnection true (getDbConnection true init).2).2) in
  dbPool st = [0%nat; 1%nat] /\
  (getDbConnection true st).1 = Some (Some 2%nat) /\
  dbPool (getDbConnection true st).2 = [0%nat; 1%nat].
Proof.
  intros st.
  assert (Hwf : wf st) by (repeat constructor).
  assert (Hlen : (length (dbPool st) < MAX_POOL_SIZE)%nat) by (vm_compute; lia).
  split; [reflexivity|].
  split; [exact (proj1 (C8_pool_hands_out_new_instance st Hwf Hlen))|].
  exact (proj1 (proj2 (proj2 (C8_pool_hands_out_new_instance st Hwf Hlen)))).
Defined.

End pool_facts.

(** ** The main side *)

Section index_facts.
Import Index.

(** The guard of line 107 lets the replacement run only on a text without
    a dollar, where it changes nothing. *)
Lemma executeQuerySync_queryString_text (text values q : value) :
  executeQuerySync_queryString text values = Ok q -> q = text.
Proof.
  unfold executeQuerySync_queryString.
  destruct (truthy values); [|congruence].
  destruct (js_indexOf text "$") as [i|] eqn:Hi; [|discriminate].
  destruct (i =? -1) eqn:E; [|congruence].
  apply Z.eqb_eq in E. subst i.
  unfold js_forEach_replace.
  destruct values as [| | | | |[|item rest]| | | |]; try discriminate; [congruence|].
  destruct text; try discriminate.
  simpl in Hi. injection Hi as Hi.
  rewrite replacePlaceholders_no_dollar by exact Hi. congruence.
Qed.

(** The two guards on a string text and an array of values. *)
Lemma queryString_guards (s : string) (items : list value) :
  executeQuerySync_queryString (VStr s) (VArr items) = Ok (VStr s) /\
  executeQuery_queryString (VStr s) (VArr items) =
    Ok (VStr (if indexOf s "$" =? -1 then s else replacePlaceholders items 0 s)).
Proof.
  split.
  - destruct (executeQuerySync_queryString (VStr s) (VArr items)) as [q|n m] eqn:E.
    + by apply executeQuerySync_queryString_text in E as ->.
    + unfold executeQuerySync_queryString in E. simpl in E.
      destruct (indexOf s "$" =? -1); [|discriminate].
      by destruct items.
  - unfold executeQuery_queryString. simpl.
    destruct (indexOf s "$" =? -1); simpl; [reflexivity|].
    by destruct items.
Qed.

Lemma checkAgain_empty (timestamp : Z) : checkAgain ∅ timestamp = None.
Proof. unfold checkAgain. by rewrite lookup_empty. Qed.


(** What a call of [executeQuery] can leave behind. *)
Lemma executeQuery_cases gw (rv : gmap string value) now text values :
  let c := executeQuery gw rv now text values in
  (call_events c = [] /\ call_returnValues c = rv /\ call_timer c = None /\
   exists n m, call_promise c = Rejected n m) \/
  (exists w q,
     executeQuery_queryString text values = Ok q /\ gw = Returns (Some w) /\
     call_returnValues c = delete (key (VNum now)) rv /\
     ((checkAgain rv now = None /\
       call_events c = [WorkerPost w (exec_message now q); SetTimeout0] /\
       call_promise c = Pending /\ call_timer c = Some now) \/
      (exists v, checkAgain rv now = Some v /\
         call_events c = [WorkerPost w (exec_message now q)] /\
         call_promise c = Fulfilled v /\ call_timer c = None))).
Proof.
  unfold executeQuery, await_getWorker, worker_postMessage, ReferenceError, TypeError, rejected.
  cbv zeta.
  destruct (executeQuery_queryString text values) as [q|n m]; [|left; simpl; eauto 6].
  destruct gw as [|[w|]|n m]; simpl; [left; eauto 6| |left; eauto 6|left; eauto 6].
  right. exists w, q.
  destruct (checkAgain rv now) as [v|]; simpl.
  - repeat split. right. eauto 6.
  - repeat split. left. eauto.
Qed.


End index_facts.

Section index_claims.
Import Index.

(** C10: [executeQuerySync] never substitutes a value into the query text.
    Its guard runs the replacement only on a text without "$" (the guard
    of [executeQuery] is the opposite), and there every replacement of
    "$i" changes nothing; so whenever the call gets to build its message,
    the [sql] field is [text], and what is posted is the JSON text of that
    message. *)
Theorem C10_executeQuerySync_sql_is_text
    (JSON_stringify : value -> string) (gw : global_getWorker) (text values : value) :
  (forall q, executeQuerySync_queryString text values = Ok q -> q = text) /\
  (forall s items,
     indexOf s "$" = -1 -> replacePlaceholders items 0 s = s) /\
  (forall s items,
     executeQuerySync_queryString (VStr s) (VArr items) = Ok (VStr s) /\
     executeQuery_queryString (VStr s) (VArr items) =
       Ok (VStr (if indexOf s "$" =? -1 then s else replacePlaceholders items 0 s))) /\
  (forall w payload,
     WorkerPost w payload ∈ (executeQuerySync JSON_stringify gw text values).2 ->
     payload = VStr (JSON_stringify (sync_message text)) /\
     get (sync_message text) "sql" = Ok text).
Proof.
  split; [intros q; apply executeQuerySync_queryString_text|].
  split; [intros s items; apply replacePlaceholders_no_dollar|].
  split; [apply queryString_guards|].
  intros w payload. unfold executeQuerySync.
  destruct (executeQuerySync_queryString text values) as [q|] eqn:Hq;
    [|by intros ?%elem_of_nil].
  apply executeQuerySync_queryString_text in Hq as ->.
  destruct gw as [|[w'|]|]; simpl; try by intros ?%elem_of_nil.
  intros [= _ ->]%list_elem_of_singleton. by split.
Qed.

Lemma C10_executeQuerySync_sql_is_text_witness :
  let stringify := fun v : value => ToString v in
  let text := VStr "SELECT * FROM animals" in
  let values := VArr [VNum 7] in
  executeQuerySync_queryString text values = Ok text /\
  (executeQuerySync stringify (Returns (Some "default"%string)) text values).2 =
    [WorkerPost "default" (VStr (stringify (sync_message text)))] /\
  get (sync_message text) "sql" = Ok text.
Proof.
  intros stringify text values.
  assert (Hq : executeQuerySync_queryString text values = Ok text) by reflexivity.
  assert (Hin : WorkerPost "default" (VStr (stringify (sync_message text))) ∈
                (executeQuerySync stringify (Returns (Some "default"%string)) text values).2).
  { apply list_elem_of_singleton. reflexivity. }
  split; [exact Hq|]. split; [reflexivity|].
  pose proof (C10_executeQuerySync_sql_is_text stringify (Returns (Some "default"%string))
                text values) as (Hsame & _ & _ & Hpost).
  pose proof (Hsame text Hq) as _.
  exact (proj2 (Hpost _ _ Hin)).
Defined.

(** C2 on the module as written: with no global [getWorker], a call of
    [executeQuery] posts nothing, sets no timer, leaves [returnValues]
    alone and returns a rejected promise; when the query text itself is
    well formed the error is the ReferenceError of line 86. *)
Theorem C2_executeQuery_stops_at_getWorker
    (rv : gmap string value) (now : Z) (text values : value) :
  let c := executeQuery Unbound rv now text values in
  call_events c = [] /\ call_timer c = None /\ call_returnValues c = rv /\
  call_promise c =
    match executeQuery_queryString text values with
    | Ok _ => Rejected "ReferenceError" "getWorker is not defined"
    | Throw name message => Rejected name message
    end.
Proof.
  unfold executeQuery. destruct (executeQuery_queryString text values); by repeat split.
Qed.

Example executeQuery_unbound_example :
  executeQuery Unbound ∅ 1700000000000 (VStr "SELECT 1") VUndef =
  {| call_events := []; call_returnValues := ∅;
     call_promise := Rejected "ReferenceError" "getWorker is not defined";
     call_timer := None |}.
Proof. reflexivity. Qed.

(** The correlator where a global [getWorker] yields a worker: the message
    is keyed by [Date.now()], a timer re-runs [checkAgain] until the entry
    under that key is truthy, the call then resolves with a clone of it,
    and an entry under another key changes nothing. *)
Lemma executeQuery_correlates (w : string) (rv : gmap string value) (now : Z) (text : value) :
  let c := executeQuery (Returns (Some w)) rv now text VUndef in
  worker_posts (call_events c) = [exec_message now text] /\
  get (exec_message now text) "timestamp" = Ok (VNum now) /\
  (forall stored, rv !! key (VNum now) = Some stored -> truthy stored = true ->
     checkAgain rv now = Some (structuredClone stored)) /\
  (forall k v, k <> key (VNum now) ->
     checkAgain (<[k := v]> rv) now = checkAgain rv now).
Proof.
  repeat split.
  - unfold worker_posts, executeQuery. simpl.
    by destruct (checkAgain rv now).
  - intros stored Hs Ht. unfold checkAgain. by rewrite Hs, Ht.
  - intros k v Hk. unfold checkAgain. by rewrite lookup_insert_ne.
Qed.

End index_claims.

Section returnValues_facts.
Import Index.


(** Were a truthy entry stored under the key 5, a call made when
    [Date.now()] is 5 would resolve with it and delete it: the entries are
    safe because none is ever stored, not because of the [finally] clause. *)
Example executeQuery_equal_timestamp :
  let rv : gmap string value := <[key (VNum 5) := VArr [VArr [VNum 1]]]> ∅ in
  let c := executeQuery (Returns (Some "default"%string)) rv 5 (VStr "SELECT 2") VUndef in
  call_promise c = Fulfilled (VArr [VArr [VNum 1]]) /\
  call_returnValues c !! key (VNum 5) = None.
Proof.
  intros rv c. unfold c, rv, executeQuery, checkAgain. simpl.
  rewrite lookup_insert_eq. simpl. split; [reflexivity|apply lookup_delete_eq].
Qed.

End returnValues_facts.

(** ** The two sides together *)

Section system_facts.
Import Index System.

(** A message without an [action] falls to the [default] case. *)
Lemma exec_message_default lib inst timestamp queryString :
  Worker.handle lib inst (exec_message timestamp queryString) =
  (Fulfilled (),
   {| Worker.instance := inst;
      Worker.trace := [ConsoleLog [exec_message timestamp queryString]] |}).
Proof. reflexivity. Qed.

(** No message that [index.js] posts is answered by the worker. *)
Lemma posted_by_index_no_reply lib inst m :
  posted_by_index m -> posted (Worker.trace (Worker.handle lib inst m).2) = [].
Proof.
  intros Hm.
  destruct (posted (Worker.trace (Worker.handle lib inst m).2)) as [|reply rest] eqn:E;
    [reflexivity|].
  assert (Hin : reply ∈ posted (Worker.trace (Worker.handle lib inst m).2))
    by (rewrite E; apply list_elem_of_here).
  apply handle_posted in Hin as (timestamp & result & Hact & _).
  destruct Hm; discriminate.
Qed.

Lemma worker_posts_of_call gw (rv : gmap string value) now text values :
  Forall posted_by_index (worker_posts (call_events (executeQuery gw rv now text values))).
Proof.
  destruct (executeQuery_cases gw rv now text values)
    as [(-> & _) | (w & q & _ & _ & _ & [(_ & -> & _) | (v & _ & -> & _)])];
    simpl; repeat constructor.
Qed.

Lemma quiet_step (s s' : state) : quiet s -> step s s' -> quiet s'.
Proof.
  intros (Hrv & Hmain & Hwork & Hful) Hstep.
  destruct Hstep as [s m Hm | s gw now text values | s before m after lib inst Hq
                    | s before data after Hq | s before ts after v Hq Hcheck
                    | s before ts after Hq Hcheck]; unfold quiet; simpl.
  - repeat split; try assumption. apply Forall_app. split; [assumption|by constructor].
  - rewrite Hrv.
    destruct (executeQuery_cases gw ∅ now text values)
      as [(_ & Hrv' & _ & n & m & Hp) | (w & q & _ & _ & Hrv' & Hcase)].
    + rewrite Hrv', Hp, Hful. repeat split; try assumption.
      apply Forall_app. split; [assumption|apply worker_posts_of_call].
    + rewrite Hrv', delete_empty.
      destruct Hcase as [(_ & _ & Hp & _) | (v & Hv & _)];
        [|by rewrite checkAgain_empty in Hv].
      rewrite Hp, Hful. repeat split; try assumption.
      apply Forall_app. split; [assumption|apply worker_posts_of_call].
  - rewrite Hq in Hwork. apply Forall_app in Hwork as [Hb Hma].
    apply Forall_cons in Hma as [Hm Ha].
    rewrite (posted_by_index_no_reply _ _ _ Hm), app_nil_r.
    repeat split; try assumption. apply Forall_app. by split.
  - rewrite Hmain in Hq. by destruct before.
  - rewrite Hrv, checkAgain_empty in Hcheck. discriminate.
  - by repeat split.
Qed.

Lemma quiet_init : quiet init.
Proof. by repeat split. Qed.

Lemma reachable_quiet (s : state) : reachable s -> quiet s.
Proof.
  induction 1 as [|s s' _ IH Hstep]; [apply quiet_init | by eapply quiet_step].
Qed.

Lemma reachable_rtc (s s' : state) : reachable s -> rtc step s s' -> reachable s'.
Proof.
  intros Hs Hsteps. induction Hsteps as [|s1 s2 s3 H12 _ IH]; [assumption|].
  apply IH. by eapply reachable_step.
Qed.

End system_facts.

Section system_claims.
Import Index System.

(** C1: a message that [executeQuery] posts carries [timestamp], [type]
    "exec", [sql] and [returnValue] and no [action]; the worker, which
    switches on [action] alone, takes the [default] case for it: it logs
    the data and posts no reply.  In every state the two sides reach, the
    promise a call of [executeQuery] returns is not resolved, and it is
    resolved in no state that follows. *)
Theorem C1_executeQuery_never_resolves
    (s : state) (gw : global_getWorker) (now : Z) (text values : value) :
  reachable s ->
  let c := executeQuery gw (returnValues s) now text values in
  (forall w m, WorkerPost w m ∈ call_events c ->
     (exists queryString,
        m = VObj [("timestamp", VNum now); ("type", VStr "exec");
                  ("sql", queryString); ("returnValue", VStr "resultRows")]) /\
     get m "action" = Ok VUndef /\
     Worker.switch VUndef = Worker.case_default /\
     forall lib inst,
       Worker.handle lib inst m =
         (Fulfilled (), {| Worker.instance := inst; Worker.trace := [ConsoleLog [m]] |}) /\
       posted (Worker.trace (Worker.handle lib inst m).2) = []) /\
  (forall v, call_promise c <> Fulfilled v) /\
  (forall s', rtc step (after_call s now c) s' -> fulfilled s' = []).
Proof.
  intros Hs c.
  assert (Hafter : reachable (after_call s now c)).
  { eapply reachable_step; [exact Hs|]. apply step_executeQuery. }
  pose proof (reachable_quiet _ Hs) as (Hrv & _).
  split; [|split].
  - intros w m Hin.
    assert (Hshape : exists q, m = exec_message now q).
    { subst c. destruct (executeQuery_cases gw (returnValues s) now text values)
        as [(Hev & _) | (w' & q & _ & _ & _ & [(_ & Hev & _) | (v & _ & Hev & _)])];
        rewrite Hev in Hin.
      - by apply elem_of_nil in Hin.
      - apply elem_of_cons in Hin as [[= _ ->]|Hin]; [eauto|].
        apply list_elem_of_singleton in Hin. discriminate.
      - apply list_elem_of_singleton in Hin as [= _ ->]. eauto. }
    destruct Hshape as (q & ->).
    split; [by exists q|]. split; [reflexivity|]. split; [reflexivity|].
    intros lib inst. by rewrite exec_message_default.
  - intros v Hv.
    pose proof (reachable_quiet _ Hafter) as (_ & _ & _ & Hful).
    unfold after_call in Hful. simpl in Hful. fold c in Hful. rewrite Hv in Hful.
    by apply app_eq_nil in Hful as [_ ?].
  - intros s' Hsteps.
    by apply (reachable_quiet s'), (reachable_rtc _ _ Hafter Hsteps).
Qed.

Lemma C1_executeQuery_never_resolves_witness :
  let c := executeQuery (Returns (Some "default"%string)) (returnValues init)
             1700000000000 (VStr "SELECT * FROM animals WHERE id=$1;") (VArr [VNum 3]) in
  reachable init /\
  call_events c =
    [WorkerPost "default"
       (VObj [("timestamp", VNum 1700000000000); ("type", VStr "exec");
              ("sql", VStr "SELECT * FROM animals WHERE id='3';");
              ("returnValue", VStr "resultRows")]);
     SetTimeout0] /\
  forall v, call_promise c <> Fulfilled v.
Proof.
  intros c. split; [apply reachable_init|]. split; [by vm_compute|].
  exact (proj1 (proj2 (C1_executeQuery_never_resolves init
           (Returns (Some "default"%string)) 1700000000000
           (VStr "SELECT * FROM animals WHERE id=$1;") (VArr [VNum 3]) reachable_init))).
Defined.



End system_claims.


(** ** The [api] object *)

Section api_facts.
Import Api.

Lemma lookup_own (ws : gmap string nat) (name : string) (w : nat) :
  lookup ws name = Own w <-> ws !! name = Some w.
Proof.
  unfold lookup. destruct (ws !! name) as [w'|].
  - split; congruence.
  - case_bool_decide; split; discriminate.
Qed.

Lemma lookup_absent (ws : gmap string nat) (name : string) :
  lookup ws name = Absent -> ws !! name = None.
Proof. unfold lookup. by destruct (ws !! name). Qed.

Lemma wf_init_api : wf init.
Proof.
  unfold wf, init; simpl. repeat split; try (intros; by simplify_map_eq).
  - intros w Hin. by apply elem_of_nil in Hin.
  - intros w msg Hin. by apply elem_of_nil in Hin.
Qed.

Lemma wf_taken (st : state) (cons' : list event) :
  wf st ->
  wf {| workers := workers st; spawned := S (spawned st);
        terminated := terminated st ++ [spawned st]; outbox := outbox st;
        console := cons' |}.
Proof.
  intros (Hmade & Hterm & Hlive & Hinj & Hout). unfold wf; simpl.
  split; [|split; [|split; [|split]]].
  - intros name w Hw. specialize (Hmade _ _ Hw). lia.
  - intros w [Hin|Hin%list_elem_of_singleton]%elem_of_app.
    + specialize (Hterm _ Hin). lia.
    + lia.
  - intros name w Hw [Hin|Hin%list_elem_of_singleton]%elem_of_app.
    + by apply (Hlive _ _ Hw).
    + specialize (Hmade _ _ Hw). lia.
  - exact Hinj.
  - exact Hout.
Qed.

Lemma wf_initalizeWorker (name : string) (st : state) :
  wf st -> wf (initalizeWorker name st).
Proof.
  intros Hwf. unfold initalizeWorker.
  destruct (lookup (workers st) name) as [w| |] eqn:Hl; try by apply wf_taken.
  destruct Hwf as (Hmade & Hterm & Hlive & Hinj & Hout).
  apply lookup_absent in Hl. unfold wf; simpl.
  split; [|split; [|split; [|split]]].
  - intros n w Hw. destruct (decide (name = n)) as [<-|Hne].
    + rewrite lookup_insert_eq in Hw. injection Hw as <-. lia.
    + rewrite lookup_insert_ne in Hw by done. specialize (Hmade _ _ Hw). lia.
  - intros w Hin. specialize (Hterm _ Hin). lia.
  - intros n w Hw Hin. destruct (decide (name = n)) as [<-|Hne].
    + rewrite lookup_insert_eq in Hw. injection Hw as <-.
      specialize (Hterm _ Hin). lia.
    + rewrite lookup_insert_ne in Hw by done. by apply (Hlive _ _ Hw).
  - intros n1 n2 w H1 H2.
    destruct (decide (name = n1)) as [<-|Hne1], (decide (name = n2)) as [<-|Hne2];
      try done.
    + rewrite lookup_insert_eq in H1. injection H1 as <-.
      rewrite lookup_insert_ne in H2 by done. specialize (Hmade _ _ H2). lia.
    + rewrite lookup_insert_eq in H2. injection H2 as <-.
      rewrite lookup_insert_ne in H1 by done. specialize (Hmade _ _ H1). lia.
    + rewrite lookup_insert_ne in H1, H2 by done. by eapply Hinj.
  - intros w msg Hin. destruct (Hout _ _ Hin) as (n & Hn).
    exists n. rewrite lookup_insert_ne; [done|]. intros <-. congruence.
Qed.

Lemma wf_post (sl : slot) (msg : value) (st : state) :
  wf st -> (forall w, sl = Own w -> exists name, workers st !! name = Some w) ->
  wf (post sl msg st).2.
Proof.
  intros Hwf Hsl. destruct sl as [w| |]; simpl; try done.
  destruct Hwf as (Hmade & Hterm & Hlive & Hinj & Hout).
  unfold wf; simpl. repeat split; try done.
  intros w' msg' [Hin|Hin%list_elem_of_singleton]%elem_of_app; [by eapply Hout|].
  injection Hin as -> _. by apply Hsl.
Qed.

Lemma wf_run (o : op) (st : state) : wf st -> wf (run o st).2.
Proof.
  intros Hwf. destruct o as [name|name|g fileName arrayBuffer]; simpl.
  - unfold createDB. apply wf_post; [by apply wf_initalizeWorker|].
    intros w Hw%lookup_own. eauto.
  - unfold downloadDB.
    destruct (lookup (workers st) (ToString name)) as [w| |] eqn:Hl; simpl; try done.
    apply (wf_post (Own w)); [done|]. intros w' [= <-]. apply lookup_own in Hl. eauto.
  - unfold uploadDB. case_bool_decide.
    + destruct g; [|done].
      destruct (lookup (workers st) _); simpl; try done. by apply wf_initalizeWorker.
    + simpl. destruct Hwf as (Hmade & Hterm & Hlive & Hinj & Hout). by repeat split.
Qed.

Lemma wf_run_all (ops : list op) (st : state) : wf st -> wf (run_all ops st).
Proof.
  revert st. induction ops as [|o ops IH]; intros st Hwf; [exact Hwf|].
  apply IH. by apply wf_run.
Qed.

(** X1: after any sequence of [createDB], [downloadDB] and [uploadDB] calls
    made since the module was loaded, no registered worker has been
    terminated, two names never share a worker, and every message was
    posted to a worker that is registered and alive. *)
Theorem X1_api_registry_sound (ops : list op) :
  let st := run_all ops init in
  (forall name w, workers st !! name = Some w -> w ∉ terminated st) /\
  (forall n1 n2 w, workers st !! n1 = Some w -> workers st !! n2 = Some w -> n1 = n2) /\
  (forall w msg, (w, msg) ∈ outbox st ->
     (w ∉ terminated st) /\ exists name, workers st !! name = Some w).
Proof.
  pose proof (wf_run_all ops init wf_init_api) as (_ & _ & Hlive & Hinj & Hout).
  cbv zeta. split; [exact Hlive|]. split; [exact Hinj|].
  intros w msg Hin. destruct (Hout _ _ Hin) as (name & Hname).
  split; [by eapply Hlive | by exists name].
Qed.

Lemma X1_api_registry_sound_witness :
  let st := run_all [op_createDB (VStr "animals"); op_createDB (VStr "animals");
                     op_downloadDB (VStr "animals")] init in
  workers st !! "animals"%string = Some 0%nat /\
  terminated st = [1%nat] /\
  (0%nat, VObj [("action", VStr "downloadDB")]) ∈ outbox st /\
  0%nat ∉ terminated st.
Proof.
  intros st.
  assert (Hreg : workers st !! "animals"%string = Some 0%nat) by (by vm_compute).
  assert (Hin : (0%nat, VObj [("action", VStr "downloadDB")]) ∈ outbox st).
  { do 2 apply list_elem_of_further. apply list_elem_of_here. }
  split; [exact Hreg|]. split; [reflexivity|]. split; [exact Hin|].
  exact (proj1 (X1_api_registry_sound
                  [op_createDB (VStr "animals"); op_createDB (VStr "animals");
                   op_downloadDB (VStr "animals")]) _ _ Hreg).
Defined.



(** X3: [api.uploadDB] never posts a message, whatever the file name and
    the buffer; when it returns normally it has registered no worker either.
    With the extension "sqlite3" and no global named [worker] it throws the
    ReferenceError of line 60 and changes nothing. *)
Theorem X3_uploadDB_never_posts
    (global_worker : bool) (fileName : string) (arrayBuffer : value) (st : state) :
  outbox (uploadDB global_worker fileName arrayBuffer st).2 = outbox st /\
  ((uploadDB global_worker fileName arrayBuffer st).1 = Ok () ->
     workers (uploadDB global_worker fileName arrayBuffer st).2 = workers st /\
     spawned (uploadDB global_worker fileName arrayBuffer st).2 = spawned st) /\
  (head (tail (split_dot fileName)) = Some "sqlite3"%string ->
     uploadDB false fileName arrayBuffer st =
       (Throw "ReferenceError" "worker is not defined", st)).
Proof.
  unfold uploadDB. split; [|split].
  - case_bool_decide; [|done]. destruct global_worker; [|done].
    destruct (lookup (workers st) _); try done.
    unfold initalizeWorker. by destruct (lookup (workers st) _).
  - case_bool_decide; [|done]. destruct global_worker; [|discriminate].
    destruct (lookup (workers st) _); try done.
  - intros Hext. by rewrite bool_decide_eq_true_2.
Qed.

Lemma X3_uploadDB_never_posts_witness :
  head (tail (split_dot "animals.sqlite3")) = Some "sqlite3"%string /\
  uploadDB false "animals.sqlite3" (VBuf 4096) init =
    (Throw "ReferenceError" "worker is not defined", init) /\
  (uploadDB true "notes.txt" (VBuf 10) init).1 = Ok () /\
  workers (uploadDB true "notes.txt" (VBuf 10) init).2 = workers init.
Proof.
  assert (Hext : head (tail (split_dot "animals.sqlite3")) = Some "sqlite3"%string)
    by reflexivity.
  assert (Hok : (uploadDB true "notes.txt" (VBuf 10) init).1 = Ok ()) by reflexivity.
  pose proof (X3_uploadDB_never_posts false "animals.sqlite3" (VBuf 4096) init)
    as (_ & _ & Hthrow).
  pose proof (X3_uploadDB_never_posts true "notes.txt" (VBuf 10) init) as (_ & Hsame & _).
  split; [exact Hext|]. split; [exact (Hthrow Hext)|]. split; [exact Hok|].
  exact (proj1 (Hsame Hok)).
Defined.

End api_facts.

(** ** Placeholders *)

Lemma append_cons (x : ascii) (a b : string) : String x a +:+ b = String x (a +:+ b).
Proof. reflexivity. Qed.

Lemma append_assoc (a b c : string) : (a +:+ b) +:+ c = a +:+ (b +:+ c).
Proof. induction a as [|x a IH]; [reflexivity|]. by rewrite !append_cons, IH. Qed.

Lemma substring_all (s : string) (m : nat) :
  (String.length s <= m)%nat -> String.substring 0 m s = s.
Proof.
  revert m. induction s as [|c s IH]; intros m Hm.
  - by destruct m.
  - destruct m as [|m]; simpl in *; [lia|]. rewrite IH by lia. reflexivity.
Qed.

Lemma substring_skip (p post : string) (m : nat) :
  String.substring (String.length p) m (p +:+ post) = String.substring 0 m post.
Proof.
  induction p as [|c p IH]; [reflexivity|]. rewrite append_cons. exact IH.
Qed.

Lemma prefix_append (p post : string) : String.prefix p (p +:+ post) = true.
Proof.
  induction p as [|c p IH].
  - apply prefix_empty.
  - rewrite append_cons, prefix_cons. destruct (ascii_dec c c); [exact IH|done].
Qed.

Lemma length_append (a b : string) :
  String.length (a +:+ b) = (String.length a + String.length b)%nat.
Proof.
  induction a as [|x a IH]; [reflexivity|].
  rewrite append_cons. simpl. by rewrite IH.
Qed.

Lemma indexOf_dollar_cons (c : ascii) (s : string) :
  indexOf (String c s) "$" = -1 <-> c <> "$"%char /\ indexOf s "$" = -1.
Proof.
  rewrite !indexOf_none, split_first_cons, prefix_cons, prefix_empty.
  destruct (ascii_dec "$" c) as [<-|Hc].
  - split; [discriminate|intros [? _]; done].
  - destruct (split_first "$" s) as [[pre post]|].
    + split; [discriminate | intros [_ ?]; discriminate].
    + split; [intros _; split; congruence | done].
Qed.

Lemma indexOf_dollar_append (a b : string) :
  indexOf (a +:+ b) "$" = -1 <-> indexOf a "$" = -1 /\ indexOf b "$" = -1.
Proof.
  induction a as [|c a IH].
  - split; [intros H; split; [reflexivity|exact H] | intros [_ H]; exact H].
  - rewrite append_cons, !indexOf_dollar_cons, IH. tauto.
Qed.

Lemma split_first_placeholder (pre d post : string) :
  indexOf pre "$" = -1 ->
  split_first (String "$"%char d) (pre +:+ String "$"%char d +:+ post) = Some (pre, post).
Proof.
  induction pre as [|c pre IH]; intros Hpre.
  - change (EmptyString +:+ String "$"%char d +:+ post)
      with (String "$"%char d +:+ post).
    change (String "$"%char d +:+ post) with (String "$"%char (d +:+ post)) at 1.
    rewrite split_first_cons.
    change (String "$"%char (d +:+ post)) with (String "$"%char d +:+ post).
    rewrite prefix_append, substring_skip, substring_all; [reflexivity|].
    rewrite length_append. lia.
  - apply indexOf_dollar_cons in Hpre as [Hc Hpre].
    change (String c pre +:+ String "$"%char d +:+ post)
      with (String c (pre +:+ String "$"%char d +:+ post)).
    rewrite split_first_cons, prefix_cons.
    destruct (ascii_dec "$" c) as [E|_]; [congruence|].
    by rewrite IH.
Qed.

Lemma GetSubstitution_no_dollar (matched pre post r : string) :
  indexOf r "$" = -1 -> GetSubstitution matched pre post r = r.
Proof.
  induction r as [|c r IH]; intros Hr; [reflexivity|].
  apply indexOf_dollar_cons in Hr as [Hc Hr].
  assert (Hstep : GetSubstitution matched pre post (String c r) =
                   String c (GetSubstitution matched pre post r)).
  { simpl. destruct c as [[] [] [] [] [] [] [] []]; try reflexivity. congruence. }
  rewrite Hstep, IH by exact Hr. reflexivity.
Qed.

Lemma replace_placeholder (pre d post v : string) :
  indexOf pre "$" = -1 -> indexOf v "$" = -1 ->
  replace (pre +:+ String "$"%char d +:+ post) (String "$"%char d) ("'" +:+ v +:+ "'") =
  pre +:+ "'" +:+ v +:+ "'" +:+ post.
Proof.
  intros Hpre Hv. unfold replace. rewrite split_first_placeholder by exact Hpre.
  rewrite GetSubstitution_no_dollar.
  - by rewrite !append_assoc.
  - apply indexOf_dollar_append. split; [reflexivity|].
    apply indexOf_dollar_append. split; [exact Hv|reflexivity].
Qed.

Section placeholder_facts.
Import Placeholders Index.

Lemma template_has_dollar (pre first seg : string) (rest : list string) (index : nat) :
  indexOf (pre +:+ template first (seg :: rest) index) "$" <> -1.
Proof.
  simpl. intros H.
  apply indexOf_dollar_append in H as [_ H].
  apply indexOf_dollar_append in H as [_ H].
  rewrite append_cons in H. apply indexOf_dollar_cons in H as [H _]. by apply H.
Qed.

(** Each value goes to its own placeholder. *)
Lemma replacePlaceholders_template (rest : list string) :
  forall (pre first : string) (index : nat) (items : list value),
    length items = length rest ->
    indexOf pre "$" = -1 ->
    indexOf first "$" = -1 ->
    Forall (fun seg => indexOf seg "$" = -1) rest ->
    Forall (fun item => indexOf (ToString item) "$" = -1) items ->
    replacePlaceholders items index (pre +:+ template first rest index) =
    pre +:+ filled first rest items.
Proof.
  induction rest as [|seg rest IH]; intros pre first index items Hlen Hpre Hfirst Hrest Hitems.
  - destruct items; [reflexivity|discriminate].
  - destruct items as [|item items]; [discriminate|].
    apply Forall_cons in Hrest as [Hseg Hrest].
    apply Forall_cons in Hitems as [Hitem Hitems].
    simpl.
    change ("$" +:+ pretty (index + 1)%nat) with (String "$"%char (pretty (index + 1)%nat)).
    rewrite <- (append_assoc pre first).
    rewrite replace_placeholder.
    + set (pre' := (pre +:+ first) +:+ "'" +:+ ToString item +:+ "'").
      assert (Hassoc :
        (pre +:+ first) +:+ "'" +:+ ToString item +:+ "'" +:+ template seg rest (S index) =
        pre' +:+ template seg rest (S index))
        by (unfold pre'; by rewrite !append_assoc).
      rewrite Hassoc, (IH pre' seg (S index) items).
      * unfold pre'. by rewrite !append_assoc.
      * by injection Hlen.
      * unfold pre'. rewrite !indexOf_dollar_append. by repeat split.
      * exact Hseg.
      * exact Hrest.
      * exact Hitems.
    + apply indexOf_dollar_append. by split.
    + exact Hitem.
Qed.

Lemma executeQuery_queryString_template
    (first seg : string) (rest : list string) (item : value) (items : list value) :
  length items = length rest ->
  indexOf first "$" = -1 ->
  Forall (fun s => indexOf s "$" = -1) (seg :: rest) ->
  Forall (fun v => indexOf (ToString v) "$" = -1) (item :: items) ->
  executeQuery_queryString (VStr (template first (seg :: rest) 0)) (VArr (item :: items)) =
  Ok (VStr (filled first (seg :: rest) (item :: items))).
Proof.
  intros Hlen Hfirst Hsegs Hitems.
  unfold executeQuery_queryString, js_indexOf, js_forEach_replace.
  change (truthy (VArr (item :: items))) with true. cbv iota.
  destruct (indexOf (template first (seg :: rest) 0) "$" =? -1) eqn:E.
  - apply Z.eqb_eq in E. by apply (template_has_dollar EmptyString) in E.
  - simpl negb. cbv iota. f_equal. f_equal.
    apply (replacePlaceholders_template (seg :: rest) EmptyString first 0%nat (item :: items));
      try done.
    simpl. by rewrite Hlen.
Qed.

(** X4: when the placeholders $1, ..., $n occur in the text once each and in
    this order, and neither the text between them nor the string of any
    value contains a dollar, [executeQuery] sends the text with each
    placeholder replaced by the corresponding value between single quotes;
    the value is not escaped. *)
Theorem X4_placeholders_filled_in_order
    (first seg : string) (rest : list string) (item : value) (items : list value) :
  length items = length rest ->
  indexOf first "$" = -1 ->
  Forall (fun s => indexOf s "$" = -1) (seg :: rest) ->
  Forall (fun v => indexOf (ToString v) "$" = -1) (item :: items) ->
  executeQuery_queryString (VStr (template first (seg :: rest) 0)) (VArr (item :: items)) =
  Ok (VStr (filled first (seg :: rest) (item :: items))).
Proof. apply executeQuery_queryString_template. Qed.

Lemma X4_placeholders_filled_in_order_witness :
  executeQuery_queryString
    (VStr (template "UPDATE animals SET sound=" [" WHERE animal="; ";"]%string 0))
    (VArr [VStr "Moo"; VStr "O'Hara"]) =
  Ok (VStr "UPDATE animals SET sound='Moo' WHERE animal='O'Hara';").
Proof.
  apply (X4_placeholders_filled_in_order "UPDATE animals SET sound=" " WHERE animal="
           [";"%string] (VStr "Moo") [VStr "O'Hara"]).
  - reflexivity.
  - by vm_compute.
  - repeat constructor; by vm_compute.
  - repeat constructor; by vm_compute.
Defined.

End placeholder_facts.

(** ** The worker, case by case *)

Section worker_cases.
Import Worker.

Ltac unfold_W :=
  unfold handle, onmessage, mbind, M_bind, mret, M_ret, lift, emit, log, error, postMessage,
    write_instance, try_catch, catch_print, destructure_db_message,
    createDatabase, uploadDatabase, clone_exec_result, TypeError in *.

(* run a handler along the outcomes given as hypotheses *)
Ltac drive :=
  repeat (progress (unfold_W; simpl)
          || rewrite await_getInstance_settles
          || match goal with H : _ = Ok _ |- _ => rewrite H end
          || match goal with H : has_opfs _ = _ |- _ => rewrite H end).

(** X7: a 'createDB' message, when the library initialises and the file
    opens, opens "/<name>.sqlite3" once (with OPFS when it is there, else as
    a transient database with the flags "ct"), stores the database in
    [instance] over whatever was there, logs a message and posts nothing:
    the main side is not told that the database exists. *)
Theorem X7_createDB_opens_and_stores
    (lib : Library) (sqlite3 : Sqlite3) (inst : option Db) (data name : value) (db : Db) :
  get data "action" = Ok (VStr "createDB") ->
  get data "name" = Ok name ->
  sqlite3InitModule lib = Ok sqlite3 ->
  (if has_opfs sqlite3
   then new_OpfsDb sqlite3 ("/" +:+ ToString name +:+ ".sqlite3")
   else new_DB sqlite3 ("/" +:+ ToString name +:+ ".sqlite3") "ct") = Ok db ->
  instance (handle lib inst data).2 = Some db /\
  List.filter is_lib_call (trace (handle lib inst data).2) =
    [LibInit; LibOpen (if has_opfs sqlite3 then "OpfsDb" else "DB")
                      ("/" +:+ ToString name +:+ ".sqlite3")] /\
  posted (trace (handle lib inst data).2) = [] /\
  (handle lib inst data).1 = Fulfilled ().
Proof.
  intros Hact Hname Hinit Hopen.
  revert Hopen. destruct (has_opfs sqlite3) eqn:Hopfs; intros Hopen; drive; by repeat split.
Qed.

Lemma X7_createDB_opens_and_stores_witness :
  let sqlite3 := {| has_opfs := false; new_OpfsDb := fun f => Ok f;
                    new_DB := fun f _ => Ok f;
                    sqlite3_js_db_export := fun _ => Ok (VBuf 0);
                    libVersion := Ok (VStr "3.46.0") |} in
  let lib := {| sqlite3InitModule := Ok sqlite3; db_exec := fun _ _ _ => Ok ExecDb |} in
  let data := VObj [("action", VStr "createDB"); ("name", VStr "animals")] in
  instance (handle lib (Some "/old.sqlite3"%string) data).2 = Some "/animals.sqlite3"%string.
Proof.
  intros sqlite3 lib data.
  exact (proj1 (X7_createDB_opens_and_stores lib sqlite3 (Some "/old.sqlite3"%string) data
                  (VStr "animals") "/animals.sqlite3" eq_refl eq_refl eq_refl eq_refl)).
Defined.

(** X8: an 'executeQuery' message that finds a database runs [db.exec]
    once, with the [sql] and [returnValue] of the message, and when it
    yields data posts one reply with the [timestamp] of the request, the
    data and the type "application/json".  The reply handler of [index.js]
    stores the data under that timestamp, and a poll for it resolves with
    the data if it is truthy and never if it is falsy. *)
Theorem X8_executeQuery_round_trip
    (lib : Library) (db : Db) (data sql returnValue rows : value) (timestamp : Z)
    (rv : gmap string value) :
  get data "action" = Ok (VStr "executeQuery") ->
  get data "sql" = Ok sql ->
  get data "returnValue" = Ok returnValue ->
  get data "timestamp" = Ok (VNum timestamp) ->
  db_exec lib db sql returnValue = Ok (ExecData rows) ->
  let reply := VObj [("timestamp", VNum timestamp); ("result", rows);
                     ("type", VStr "application/json")] in
  trace (handle lib (Some db) data).2 =
    [ConsoleLog [sql]; LibExec db sql returnValue; PostMessage reply] /\
  Index.worker_onmessage rv reply = Ok (<[Index.key (VNum timestamp) := rows]> rv, []) /\
  Index.checkAgain (<[Index.key (VNum timestamp) := rows]> rv) timestamp =
    (if truthy rows then Some rows else None).
Proof.
  intros Hact Hsql Hret Hts Hexec reply. split; [|split].
  - drive. by rewrite structuredClone_id.
  - unfold Index.worker_onmessage. simpl. by rewrite structuredClone_id.
  - unfold Index.checkAgain. rewrite lookup_insert_eq, structuredClone_id. reflexivity.
Qed.

Lemma X8_executeQuery_round_trip_witness :
  let rows := VArr [VArr [VNum 1; VStr "Alligator"]] in
  let lib := {| sqlite3InitModule := Throw "Error" "unused";
                db_exec := fun _ _ _ => Ok (ExecData rows) |} in
  let data := VObj [("action", VStr "executeQuery"); ("timestamp", VNum 42);
                    ("sql", VStr "SELECT * FROM animals;");
                    ("returnValue", VStr "resultRows")] in
  posted (trace (handle lib (Some "/animals.sqlite3"%string) data).2) =
    [VObj [("timestamp", VNum 42); ("result", rows); ("type", VStr "application/json")]] /\
  Index.checkAgain (<[Index.key (VNum 42) := rows]> ∅) 42 = Some rows.
Proof.
  intros rows lib data.
  pose proof (X8_executeQuery_round_trip lib "/animals.sqlite3" data
                (VStr "SELECT * FROM animals;") (VStr "resultRows") rows 42 ∅
                eq_refl eq_refl eq_refl eq_refl eq_refl) as (Htrace & _ & Hpoll).
  split; [exact (f_equal posted Htrace) | exact Hpoll].
Defined.

(** X9: an 'executeQuery' message that arrives while [instance] is null is
    logged and dropped: the handler rejects with the error "not working",
    [db.exec] is not called, no timer is set and no reply is posted. *)
Theorem X9_query_without_database_is_dropped
    (lib : Library) (data sql returnValue : value) :
  get data "action" = Ok (VStr "executeQuery") ->
  get data "sql" = Ok sql ->
  get data "returnValue" = Ok returnValue ->
  handle lib None data =
    (Rejected "Error" "not working", {| instance := None; trace := [ConsoleLog [sql]] |}).
Proof.
  intros Hact Hsql Hret. by drive.
Qed.

Lemma X9_query_without_database_is_dropped_witness :
  let lib := {| sqlite3InitModule := Throw "Error" "unused";
                db_exec := fun _ _ _ => Ok (ExecData (VArr [])) |} in
  let data := VObj [("action", VStr "executeQuery"); ("timestamp", VNum 42);
                    ("sql", VStr "SELECT 1;"); ("returnValue", VStr "resultRows")] in
  posted (trace (handle lib None data).2) = [] /\
  (handle lib None data).1 = Rejected "Error" "not working".
Proof.
  intros lib data.
  pose proof (X9_query_without_database_is_dropped lib data (VStr "SELECT 1;")
                (VStr "resultRows") eq_refl eq_refl eq_refl) as H.
  split; [exact (f_equal (fun r => posted (trace r.2)) H) | exact (f_equal fst H)].
Defined.

(** X10: an 'uploadDB' message never hands the uploaded bytes to the
    library.  Without OPFS it prints the error "unsupported" and leaves
    [instance] alone.  With OPFS it only opens the file "/<name>.sqlite3",
    stores that database in [instance] and logs "New DB imported" with the
    byte length: the database opened does not depend on the buffer. *)
Theorem X10_uploadDB_never_imports
    (lib : Library) (sqlite3 : Sqlite3) (inst : option Db)
    (data name arrayBuffer byteLength : value) :
  get data "action" = Ok (VStr "uploadDB") ->
  get data "name" = Ok name ->
  get data "arrayBuffer" = Ok arrayBuffer ->
  sqlite3InitModule lib = Ok sqlite3 ->
  (has_opfs sqlite3 = false ->
     instance (handle lib inst data).2 = inst /\
     List.filter is_lib_call (trace (handle lib inst data).2) = [LibInit] /\
     ConsoleError [VStr "Error"; VStr "unsupported"] ∈ trace (handle lib inst data).2) /\
  (forall db, has_opfs sqlite3 = true ->
     new_OpfsDb sqlite3 ("/" +:+ ToString name +:+ ".sqlite3") = Ok db ->
     get arrayBuffer "byteLength" = Ok byteLength ->
     handle lib inst data =
       (Fulfilled (),
        {| instance := Some db;
           trace := [LibInit; LibOpen "OpfsDb" ("/" +:+ ToString name +:+ ".sqlite3");
                     ConsoleLog [VStr ("New DB imported as " +:+ ToString name
                                       +:+ ".sqlite3. (" +:+ ToString byteLength
                                       +:+ " Bytes)")]] |})).
Proof.
  intros Hact Hname Hbuf Hinit. split.
  - intros Hopfs. drive. repeat split. apply list_elem_of_further, list_elem_of_here.
  - intros db Hopfs Hopen Hlen. by drive.
Qed.

Lemma X10_uploadDB_never_imports_witness :
  let sqlite3 := {| has_opfs := true; new_OpfsDb := fun f => Ok f;
                    new_DB := fun f _ => Ok f;
                    sqlite3_js_db_export := fun _ => Ok (VBuf 0);
                    libVersion := Ok (VStr "3.46.0") |} in
  let lib := {| sqlite3InitModule := Ok sqlite3; db_exec := fun _ _ _ => Ok ExecDb |} in
  let data n := VObj [("action", VStr "uploadDB"); ("name", VStr "animals");
                      ("arrayBuffer", VBuf n)] in
  instance (handle lib None (data 10)).2 = instance (handle lib None (data 4096)).2 /\
  instance (handle lib None (data 10)).2 = Some "/animals.sqlite3"%string.
Proof.
  intros sqlite3 lib data.
  pose proof (proj2 (X10_uploadDB_never_imports lib sqlite3 None (data 10) (VStr "animals")
                       (VBuf 10) (VNum 10) eq_refl eq_refl eq_refl eq_refl)
                "/animals.sqlite3"%string eq_refl eq_refl eq_refl) as H10.
  pose proof (proj2 (X10_uploadDB_never_imports lib sqlite3 None (data 4096) (VStr "animals")
                       (VBuf 4096) (VNum 4096) eq_refl eq_refl eq_refl eq_refl)
                "/animals.sqlite3"%string eq_refl eq_refl eq_refl) as H4096.
  split.
  - exact (eq_trans (f_equal (fun r => instance r.2) H10)
                    (eq_sym (f_equal (fun r => instance r.2) H4096))).
  - exact (f_equal (fun r => instance r.2) H10).
Defined.

End worker_cases.

(** ** The draft main side and the earlier worker *)

Section draft_facts.
Import DraftApi.

Lemma settle_pending (p : nat) (outcome : promise value) (st : state) :
  promises st !! p = Some Pending ->
  promises (settle p outcome st) !! p = Some outcome.
Proof.
  intros H. unfold settle. simpl. rewrite H.
  apply list_lookup_insert_eq. by eapply lookup_lt_Some.
Qed.

Lemma settle_other (p q : nat) (outcome : promise value) (st : state) :
  p <> q -> promises (settle p outcome st) !! q = promises st !! q.
Proof.
  intros Hne. unfold settle. simpl.
  destruct (promises st !! p) as [[| |]|]; try done.
  by apply list_lookup_insert_ne.
Qed.

Lemma settle_handlers (p : nat) (outcome : promise value) (st : state) :
  onmessage (settle p outcome st) = onmessage st /\
  onerror (settle p outcome st) = onerror st /\
  length (promises (settle p outcome st)) = length (promises st).
Proof.
  unfold settle. simpl. repeat split.
  destruct (promises st !! p) as [[| |]|]; try done. apply length_insert.
Qed.

Lemma receive_handlers (i : incoming) (st : state) :
  onmessage (receive i st) = onmessage st /\
  onerror (receive i st) = onerror st /\
  length (promises (receive i st)) = length (promises st).
Proof.
  destruct i as [w data|w name message]; simpl.
  - unfold deliver.
    destruct (onmessage st !! w) as [[p|p|]|]; try done.
    + destruct (get data "type") as [type|]; [|done].
      destruct (get data "message") as [message|]; [|done].
      destruct (is_str type "created"); [apply settle_handlers|done].
    + destruct (get data "type") as [type|]; [|done].
      destruct (get data "result") as [result|]; [|done].
      destruct (is_str type "application/json"); [apply settle_handlers|done].
    + destruct (get data "type") as [type|]; [|done].
      by destruct (is_str type "application/vnd.sqlite3").
  - unfold fail. destruct (onerror st !! w) as [[q|q]|]; [apply settle_handlers..|done].
Qed.

Lemma receive_orphan (p : nat) (i : incoming) (st : state) :
  orphan p st -> promises (receive i st) !! p = promises st !! p.
Proof.
  intros (Hc & Hr & He). destruct i as [w data|w name message]; simpl.
  - unfold deliver.
    destruct (onmessage st !! w) as [[q|q|]|] eqn:Hw; try done.
    + destruct (get data "type") as [type|]; [|done].
      destruct (get data "message") as [message|]; [|done].
      destruct (is_str type "created"); [|done].
      apply settle_other. intros ->. by apply (Hc w).
    + destruct (get data "type") as [type|]; [|done].
      destruct (get data "result") as [result|]; [|done].
      destruct (is_str type "application/json"); [|done].
      apply settle_other. intros ->. by apply (Hr w).
    + destruct (get data "type") as [type|]; [|done].
      by destruct (is_str type "application/vnd.sqlite3").
  - unfold fail. destruct (onerror st !! w) as [[q|q]|] eqn:Hw; [| |done].
    + apply settle_other. intros ->. by apply (He w _ Hw).
    + apply settle_other. intros ->. by apply (He w _ Hw).
Qed.

Lemma receive_all_orphan (p : nat) (events : list incoming) (st : state) :
  orphan p st -> promises (receive_all events st) !! p = promises st !! p.
Proof.
  revert st. induction events as [|i events IH]; intros st Horph; [reflexivity|].
  simpl. rewrite IH.
  - by apply receive_orphan.
  - destruct (receive_handlers i st) as (Hm & He & _).
    unfold orphan. by rewrite Hm, He.
Qed.


Ltac unfold_L :=
  unfold Legacy.handle, Legacy.onmessage, Legacy.read_db, Legacy.destructure_instance_message,
    mbind, Worker.M_bind, mret, Worker.M_ret, Worker.lift, Worker.emit, Worker.log,
    Worker.error, Worker.postMessage, Worker.write_instance, Worker.try_catch,
    Worker.catch_print, Worker.createDatabase, Worker.uploadDatabase,
    Worker.clone_exec_result, TypeError in *.

Ltac drive_L :=
  repeat (progress (unfold_L; simpl)
          || match goal with H : _ = Ok _ |- _ => rewrite H end
          || match goal with H : has_opfs _ = _ |- _ => rewrite H end).

Lemma new_promise_lookup (initial : promise value) (st : state) :
  promises (new_promise initial st) !! length (promises st) = Some initial.
Proof. unfold new_promise. simpl. by apply list_lookup_middle. Qed.

(** X12: the draft main side and the earlier worker of the README agree
    on [createDB]: on a free name the call registers a new worker, posts
    the 'createDB' request to it and returns a pending promise; the worker,
    when the library initialises and the file opens, stores the database
    and answers with a message of type 'created'; that answer resolves the
    promise with the worker's message. *)
Theorem X12_draft_createDB_round_trip
    (st : state) (name : value) (lib : Library) (sqlite3 : Sqlite3) (db : Db) :
  Api.lookup (workers st) (ToString (or_default name)) = Api.Absent ->
  sqlite3InitModule lib = Ok sqlite3 ->
  (if has_opfs sqlite3
   then new_OpfsDb sqlite3 ("/" +:+ ToString (or_default name) +:+ ".sqlite3")
   else new_DB sqlite3 ("/" +:+ ToString (or_default name) +:+ ".sqlite3") "ct") = Ok db ->
  let request := VObj [("action", VStr "createDB"); ("name", or_default name)] in
  let w := spawned st in
  workers (createDB name st).2 = <[ToString (or_default name) := w]> (workers st) /\
  spawned (createDB name st).2 = S (spawned st) /\
  terminated (createDB name st).2 = terminated st /\
  outbox (createDB name st).2 = outbox st ++ [(w, request)] /\
  promises (createDB name st).2 !! (createDB name st).1 = Some Pending /\
  exists message,
    posted (Worker.trace (Legacy.handle lib None request).2) =
      [VObj [("type", VStr "created"); ("message", VStr message)]] /\
    Worker.instance (Legacy.handle lib None request).2 = Some db /\
    promises (deliver w (VObj [("type", VStr "created"); ("message", VStr message)])
                (createDB name st).2) !! (createDB name st).1 =
      Some (Fulfilled (VStr message)).
Proof.
  intros Habs Hinit Hopen request w.
  assert (Hcall : createDB name st =
    (length (promises st),
     listen_and_post w (on_created (length (promises st)))
       (reject_wrapped (length (promises st))) request
       (new_promise Pending (initalizeWorker (ToString (or_default name)) st)))).
  { unfold createDB, initalizeWorker. rewrite Habs. simpl.
    unfold Api.lookup. by rewrite lookup_insert_eq. }
  assert (Hpending : promises (createDB name st).2 !! (createDB name st).1 = Some Pending).
  { rewrite Hcall. simpl. unfold initalizeWorker. rewrite Habs. simpl.
    by apply list_lookup_middle. }
  split; [|split; [|split; [|split; [|split; [exact Hpending|]]]]].
  1-4: rewrite Hcall; simpl; unfold initalizeWorker; by rewrite Habs.
  revert Hopen. destruct (has_opfs sqlite3) eqn:Hopfs; intros Hopen.
  - eexists. split; [|split].
    + unfold request. drive_L. reflexivity.
    + unfold request. by drive_L.
    + unfold deliver.
      assert (Hh : onmessage (createDB name st).2 !! w =
                   Some (on_created (createDB name st).1)).
      { rewrite Hcall. simpl. apply lookup_insert_eq. }
      rewrite Hh. simpl. by apply settle_pending.
  - eexists. split; [|split].
    + unfold request. drive_L. reflexivity.
    + unfold request. by drive_L.
    + unfold deliver.
      assert (Hh : onmessage (createDB name st).2 !! w =
                   Some (on_created (createDB name st).1)).
      { rewrite Hcall. simpl. apply lookup_insert_eq. }
      rewrite Hh. simpl. by apply settle_pending.
Qed.


Lemma executeQuery_posts (st : state) (w : nat) (sql values sql' : value) :
  workers st !! "default"%string = Some w ->
  Index.executeQuery_queryString sql values = Ok sql' ->
  executeQuery sql values st =
    (length (promises st),
     listen_and_post w (on_result (length (promises st)))
       (reject_event (length (promises st)))
       (VObj [("action", VStr "executeQuery"); ("sql", sql')])
       (new_promise Pending st)).
Proof.
  intros Hw Hq. unfold executeQuery, Api.lookup. by rewrite Hw, Hq.
Qed.

(** X13: the draft main side and the earlier worker agree on
    [executeQuery]: with a worker registered as 'default' the call posts
    the request with the substituted SQL; a worker that holds a database
    answers with the rows [db.exec] returned, and the answer resolves the
    promise with those rows; a worker that holds no database throws a
    TypeError and posts nothing. *)
Theorem X13_draft_executeQuery_round_trip
    (st : state) (w : nat) (sql values sql' rows : value) (lib : Library) (db : Db) :
  workers st !! "default"%string = Some w ->
  Index.executeQuery_queryString sql values = Ok sql' ->
  db_exec lib db sql' (VStr "resultRows") = Ok (ExecData rows) ->
  let request := VObj [("action", VStr "executeQuery"); ("sql", sql')] in
  let reply := VObj [("result", rows); ("type", VStr "application/json")] in
  outbox (executeQuery sql values st).2 = outbox st ++ [(w, request)] /\
  posted (Worker.trace (Legacy.handle lib (Some db) request).2) = [reply] /\
  promises (deliver w reply (executeQuery sql values st).2) !! (executeQuery sql values st).1 =
    Some (Fulfilled rows) /\
  (Legacy.handle lib None request).1 =
    Rejected "TypeError" "Cannot read properties of null (reading 'exec')" /\
  posted (Worker.trace (Legacy.handle lib None request).2) = [] /\
  Worker.trace (Legacy.handle lib None request).2 = [ConsoleLog [sql']].
Proof.
  intros Hw Hq Hexec request reply.
  rewrite (executeQuery_posts st w sql values sql' Hw Hq). simpl.
  split; [reflexivity|]. split; [|split; [|split; [|split]]].
  - unfold request. drive_L. by rewrite structuredClone_id.
  - unfold deliver. simpl. rewrite lookup_insert_eq. simpl.
    rewrite (list_lookup_middle (promises st) [] Pending _ eq_refl).
    apply list_lookup_insert_eq. rewrite length_app. simpl. lia.
  - unfold request. by drive_L.
  - unfold request. by drive_L.
  - unfold request. by drive_L.
Qed.

Lemma settle_rejected (p q : nat) (name message : string) (st : state) :
  (forall v, promises st !! q <> Some (Fulfilled v)) ->
  forall v, promises (settle p (Rejected name message) st) !! q <> Some (Fulfilled v).
Proof.
  intros H v. unfold settle. simpl.
  destruct (promises st !! p) as [[| |]|] eqn:Hp; try apply H.
  destruct (decide (p = q)) as [->|Hne].
  - rewrite list_lookup_insert_eq; [discriminate|by eapply lookup_lt_Some].
  - rewrite list_lookup_insert_ne by done. apply H.
Qed.

(** Nothing the worker of [sqliteWorker.js] causes resolves a promise that
    only a handler for 'created' can resolve. *)
Lemma receive_unresolved (p : nat) (i : incoming) (st : state) :
  (forall w, onmessage st !! w <> Some (on_result p)) ->
  from_sqliteWorker i ->
  (forall v, promises st !! p <> Some (Fulfilled v)) ->
  forall v, promises (receive i st) !! p <> Some (Fulfilled v).
Proof.
  intros Hr Hfrom Hp. destruct i as [w data|w name message]; simpl.
  - destruct Hfrom as (lib & inst & m & (timestamp & result & _ & _ & ->)%handle_posted).
    unfold deliver.
    destruct (onmessage st !! w) as [[q|q|]|] eqn:Hw; simpl; try exact Hp.
    intros v.
    change (promises (settle q (Fulfilled result) st) !! p <> Some (Fulfilled v)).
    rewrite settle_other; [apply Hp|]. intros ->. by apply (Hr w).
  - unfold fail. destruct (onerror st !! w) as [[q|q]|]; [..|exact Hp];
      by apply settle_rejected.
Qed.

Lemma receive_all_unresolved (p : nat) (events : list incoming) (st : state) :
  (forall w, onmessage st !! w <> Some (on_result p)) ->
  Forall from_sqliteWorker events ->
  (forall v, promises st !! p <> Some (Fulfilled v)) ->
  forall v, promises (receive_all events st) !! p <> Some (Fulfilled v).
Proof.
  revert st. induction events as [|i events IH]; intros st Hr Hfrom Hp; [exact Hp|].
  apply Forall_cons in Hfrom as [Hi Hfrom]. simpl. apply IH.
  - destruct (receive_handlers i st) as (Hm & _). by rewrite Hm.
  - exact Hfrom.
  - by apply receive_unresolved.
Qed.

(** X14: the promise of the draft's [createDB] is never resolved by the
    worker of [sqliteWorker.js]: whatever that worker posts, in any run, the
    handler the draft installed ignores it, since it waits for a message of
    type 'created'; through any sequence of such messages and of error
    events the promise is not resolved; an error event of the new worker
    rejects it, with an [Error] whose message is the string of the event. *)
Theorem X14_draft_createDB_unanswered_by_sqliteWorker
    (st : state) (name : value) (events : list incoming) :
  handlers_sound st ->
  Api.lookup (workers st) (ToString (or_default name)) = Api.Absent ->
  Forall from_sqliteWorker events ->
  let p := (createDB name st).1 in
  let st1 := (createDB name st).2 in
  let w := spawned st in
  promises st1 !! p = Some Pending /\
  (forall lib inst data reply,
     reply ∈ posted (Worker.trace (Worker.handle lib inst data).2) ->
     deliver w reply st1 = st1) /\
  (forall v, promises (receive_all events st1) !! p <> Some (Fulfilled v)) /\
  (forall n m,
     promises (fail w n m st1) !! p = Some (Rejected "Error" "[object ErrorEvent]")).
Proof.
  intros (Hc & Hr & He) Habs Hfrom p st1 w.
  assert (Hcall : createDB name st =
    (length (promises st),
     listen_and_post w (on_created (length (promises st)))
       (reject_wrapped (length (promises st)))
       (VObj [("action", VStr "createDB"); ("name", or_default name)])
       (new_promise Pending (initalizeWorker (ToString (or_default name)) st)))).
  { unfold createDB, initalizeWorker. rewrite Habs. simpl.
    unfold Api.lookup. by rewrite lookup_insert_eq. }
  assert (Hp : p = length (promises st)) by (unfold p; by rewrite Hcall).
  assert (Hm1 : onmessage st1 = <[w := on_created p]> (onmessage st)).
  { unfold st1, p. rewrite Hcall. simpl. unfold initalizeWorker. by rewrite Habs. }
  assert (He1 : onerror st1 = <[w := reject_wrapped p]> (onerror st)).
  { unfold st1, p. rewrite Hcall. simpl. unfold initalizeWorker. by rewrite Habs. }
  assert (Hpending : promises st1 !! p = Some Pending).
  { unfold st1, p. rewrite Hcall. simpl. unfold initalizeWorker. rewrite Habs. simpl.
    by apply list_lookup_middle. }
  split; [exact Hpending|]. split; [|split].
  - intros lib inst data reply (timestamp & result & _ & _ & ->)%handle_posted.
    unfold deliver. by rewrite Hm1, lookup_insert_eq.
  - apply receive_all_unresolved.
    + intros w'. rewrite Hm1. destruct (decide (w = w')) as [<-|Hw'].
      * rewrite lookup_insert_eq. discriminate.
      * rewrite lookup_insert_ne by done. intros H%Hr. lia.
    + exact Hfrom.
    + intros v. by rewrite Hpending.
  - intros n m. unfold fail. rewrite He1, lookup_insert_eq.
    by apply settle_pending.
Qed.

Lemma executeQuery_next_promise (st : state) (sql values : value) :
  (executeQuery sql values st).1 = length (promises st) /\
  length (promises (executeQuery sql values st).2) = S (length (promises st)).
Proof.
  unfold executeQuery.
  destruct (Api.lookup (workers st) "default") as [w| |]; simpl;
    try (rewrite length_app; simpl; split; [done|lia]).
  destruct (Index.executeQuery_queryString sql values); simpl;
    rewrite length_app; simpl; split; try done; lia.
Qed.

(** X15: the draft's [executeQuery] replaces [worker.onmessage] and
    [worker.onerror] at each call.  After two calls in a row the promise of
    the first is out of reach: whatever messages and errors arrive, it
    stays pending; and the first reply to arrive resolves the promise of
    the second call. *)
Theorem X15_second_query_orphans_first
    (st : state) (w : nat) (sql1 values1 sql1' sql2 values2 sql2' : value) :
  handlers_sound st ->
  workers st !! "default"%string = Some w ->
  Index.executeQuery_queryString sql1 values1 = Ok sql1' ->
  Index.executeQuery_queryString sql2 values2 = Ok sql2' ->
  let p1 := (executeQuery sql1 values1 st).1 in
  let st1 := (executeQuery sql1 values1 st).2 in
  let p2 := (executeQuery sql2 values2 st1).1 in
  let st2 := (executeQuery sql2 values2 st1).2 in
  p1 <> p2 /\
  orphan p1 st2 /\
  (forall events, promises (receive_all events st2) !! p1 = Some Pending) /\
  (forall rows,
     promises (deliver w (VObj [("result", rows); ("type", VStr "application/json")]) st2)
       !! p2 = Some (Fulfilled rows)).
Proof.
  intros (Hc & Hr & He) Hw Hq1 Hq2 p1 st1 p2 st2.
  assert (Hcall1 := executeQuery_posts st w sql1 values1 sql1' Hw Hq1).
  assert (Hw1 : workers st1 !! "default"%string = Some w).
  { unfold st1. by rewrite Hcall1. }
  assert (Hcall2 := executeQuery_posts st1 w sql2 values2 sql2' Hw1 Hq2).
  assert (Hp1 : p1 = length (promises st)) by (unfold p1; by rewrite Hcall1).
  assert (Hlen1 : length (promises st1) = S (length (promises st))).
  { unfold st1. rewrite Hcall1. simpl. rewrite length_app. simpl. lia. }
  assert (Hp2 : p2 = S (length (promises st))).
  { unfold p2. rewrite Hcall2. simpl. exact Hlen1. }
  assert (Hne : p1 <> p2) by lia.
  assert (Hm1 : onmessage st1 = <[w := on_result p1]> (onmessage st)).
  { unfold st1, p1. by rewrite Hcall1. }
  assert (He1 : onerror st1 = <[w := reject_event p1]> (onerror st)).
  { unfold st1, p1. by rewrite Hcall1. }
  assert (Hm2 : onmessage st2 = <[w := on_result p2]> (onmessage st1)).
  { unfold st2, p2. by rewrite Hcall2. }
  assert (He2 : onerror st2 = <[w := reject_event p2]> (onerror st1)).
  { unfold st2, p2. by rewrite Hcall2. }
  assert (Horph : orphan p1 st2).
  { unfold orphan. rewrite Hm2, He2, Hm1, He1, !insert_insert_eq.
    split; [|split]; intros w'; destruct (decide (w = w')) as [<-|Hw'].
    - rewrite lookup_insert_eq. discriminate.
    - rewrite lookup_insert_ne by done. intros H%Hc. lia.
    - rewrite lookup_insert_eq. congruence.
    - rewrite lookup_insert_ne by done. intros H%Hr. lia.
    - intros e. rewrite lookup_insert_eq. intros [= <-]. simpl. lia.
    - intros e. rewrite lookup_insert_ne by done. intros H%He. lia. }
  split; [exact Hne|]. split; [exact Horph|]. split.
  - intros events. rewrite receive_all_orphan by exact Horph.
    unfold st2. rewrite Hcall2. simpl.
    rewrite lookup_app_l by (rewrite Hlen1, Hp1; lia).
    unfold st1. rewrite Hcall1. simpl. rewrite Hp1. by apply list_lookup_middle.
  - intros rows. unfold deliver.
    assert (Hh : onmessage st2 !! w = Some (on_result p2)).
    { unfold st2, p2. rewrite Hcall2. simpl. apply lookup_insert_eq. }
    rewrite Hh. simpl. apply settle_pending.
    unfold st2, p2. rewrite Hcall2. simpl. by apply list_lookup_middle.
Qed.


Lemma after_createDB_sound :
  handlers_sound (createDB VUndef init).2 /\
  workers (createDB VUndef init).2 !! "default"%string = Some 0%nat /\
  onmessage (createDB VUndef init).2 !! 0%nat = Some (on_created 0).
Proof.
  assert (Hm : onmessage (createDB VUndef init).2 = <[0%nat := on_created 0]> ∅)
    by reflexivity.
  assert (He : onerror (createDB VUndef init).2 = <[0%nat := reject_wrapped 0]> ∅)
    by reflexivity.
  assert (Hlen : length (promises (createDB VUndef init).2) = 1%nat) by reflexivity.
  split; [|split].
  - unfold handlers_sound. rewrite Hm, He, Hlen.
    split; [|split]; intros w p; destruct (decide (0%nat = w)) as [<-|Hw];
      rewrite ?lookup_insert_eq, ?lookup_insert_ne, ?lookup_empty by done;
      intros H; simplify_eq; simpl; lia.
  - reflexivity.
  - rewrite Hm. apply lookup_insert_eq.
Qed.

Lemma X12_draft_createDB_round_trip_witness :
  let sqlite3 := {| has_opfs := true; new_OpfsDb := fun f => Ok f;
                    new_DB := fun f _ => Ok f;
                    sqlite3_js_db_export := fun _ => Ok (VBuf 0);
                    libVersion := Ok (VStr "3.46.0") |} in
  let lib := {| sqlite3InitModule := Ok sqlite3; db_exec := fun _ _ _ => Ok ExecDb |} in
  Api.lookup (workers init) (ToString (or_default VUndef)) = Api.Absent /\
  workers (createDB VUndef init).2 = <[ "default"%string := 0%nat ]> ∅ /\
  outbox (createDB VUndef init).2 =
    [(0%nat, VObj [("action", VStr "createDB"); ("name", VStr "default")])] /\
  promises (createDB VUndef init).2 !! (createDB VUndef init).1 = Some Pending.
Proof.
  intros sqlite3 lib.
  assert (Hfree : Api.lookup (workers init) (ToString (or_default VUndef)) = Api.Absent)
    by (by vm_compute).
  pose proof (X12_draft_createDB_round_trip init VUndef lib sqlite3 "/default.sqlite3"
                Hfree eq_refl eq_refl) as (Hreg & _ & _ & Hout & Hpend & _).
  split; [exact Hfree|]. split; [exact Hreg|]. split; [exact Hout | exact Hpend].
Defined.

Lemma X13_draft_executeQuery_round_trip_witness :
  let rows := VArr [VArr [VNum 3; VStr "Cat"]] in
  let lib := {| sqlite3InitModule := Throw "Error" "unused";
                db_exec := fun _ _ _ => Ok (ExecData rows) |} in
  let st := (createDB VUndef init).2 in
  let sql := VStr "SELECT * FROM animals WHERE id=$1;" in
  workers st !! "default"%string = Some 0%nat /\
  promises (deliver 0 (VObj [("result", rows); ("type", VStr "application/json")])
              (executeQuery sql (VArr [VNum 3]) st).2)
    !! (executeQuery sql (VArr [VNum 3]) st).1 = Some (Fulfilled rows).
Proof.
  intros rows lib st sql.
  assert (Hw : workers st !! "default"%string = Some 0%nat) by reflexivity.
  split; [exact Hw|].
  exact (proj1 (proj2 (proj2
           (X13_draft_executeQuery_round_trip st 0 sql (VArr [VNum 3])
              (VStr "SELECT * FROM animals WHERE id='3';") rows lib "/default.sqlite3"
              Hw ltac:(by vm_compute) eq_refl)))).
Defined.

Lemma handlers_sound_init : handlers_sound init.
Proof.
  unfold handlers_sound, init. simpl.
  split; [|split]; intros w p; rewrite lookup_empty; discriminate.
Qed.

Lemma X14_draft_createDB_unanswered_by_sqliteWorker_witness :
  let rows := VArr [VArr [VNum 3; VStr "Cat"]] in
  let lib := {| sqlite3InitModule := Throw "Error" "unused";
                db_exec := fun _ _ _ => Ok (ExecData rows) |} in
  let data := VObj [("action", VStr "executeQuery"); ("sql", VStr "SELECT 1;")] in
  let reply := VObj [("timestamp", VUndef); ("result", rows);
                     ("type", VStr "application/json")] in
  let events := [message_event 0 reply; error_event 0 "Error" "out of memory";
                 message_event 0 reply] in
  handlers_sound init /\
  Forall from_sqliteWorker events /\
  deliver 0 reply (createDB VUndef init).2 = (createDB VUndef init).2 /\
  promises (receive_all events (createDB VUndef init).2) !! (createDB VUndef init).1 <>
    Some (Fulfilled (VStr "created")).
Proof.
  intros rows lib data reply events.
  assert (Hfree : Api.lookup (workers init) (ToString (or_default VUndef)) = Api.Absent)
    by (by vm_compute).
  assert (Hin : reply ∈ posted (Worker.trace
                  (Worker.handle lib (Some "/default.sqlite3"%string) data).2)).
  { apply list_elem_of_here. }
  assert (Hfrom : Forall from_sqliteWorker events).
  { repeat constructor; by exists lib, (Some "/default.sqlite3"%string), data. }
  pose proof (X14_draft_createDB_unanswered_by_sqliteWorker init VUndef events
                handlers_sound_init Hfree Hfrom) as (_ & Hignore & Hnever & _).
  split; [exact handlers_sound_init|]. split; [exact Hfrom|].
  split; [exact (Hignore _ _ _ _ Hin) | exact (Hnever _)].
Defined.

Lemma X15_second_query_orphans_first_witness :
  let st := (createDB VUndef init).2 in
  let st1 := (executeQuery (VStr "SELECT 1;") VUndef st).2 in
  let st2 := (executeQuery (VStr "SELECT 2;") VUndef st1).2 in
  handlers_sound st /\
  promises (receive_all [message_event 0 (VObj [("result", VArr [VArr [VNum 1]]);
                                                ("type", VStr "application/json")]);
                         message_event 0 (VObj [("result", VArr [VArr [VNum 2]]);
                                                ("type", VStr "application/json")])] st2)
    !! (executeQuery (VStr "SELECT 1;") VUndef st).1 = Some Pending.
Proof.
  intros st st1 st2.
  split; [exact (proj1 after_createDB_sound)|].
  exact (proj1 (proj2 (proj2
           (X15_second_query_orphans_first st 0 (VStr "SELECT 1;") VUndef (VStr "SELECT 1;")
              (VStr "SELECT 2;") VUndef (VStr "SELECT 2;")
              (proj1 after_createDB_sound) (proj1 (proj2 after_createDB_sound))
              eq_refl eq_refl))) _).
Defined.

End draft_facts.

(** ** The caller, on the draft main side *)

Section animals_facts.
Import Placeholders Animals DraftApi.

(** What the draft's [executeQuery] posts for a query text with
    placeholders. *)
Lemma executeQuery_outbox (st : state) (w : nat) (sql values sql' : value) :
  workers st !! "default"%string = Some w ->
  Index.executeQuery_queryString sql values = Ok sql' ->
  outbox (executeQuery sql values st).2 =
    outbox st ++ [(w, VObj [("action", VStr "executeQuery"); ("sql", sql')])].
Proof. intros Hw Hq. by rewrite (executeQuery_posts st w sql values sql' Hw Hq). Qed.

(** X5: the caller is written for the [api] of the draft [part_000]: the
    [api] of [index.js] has no [executeQuery], the draft's has one that
    reads [sql].  On the draft, with a worker registered as 'default',
    [getAnimals(id)] posts the query for every animal when [id] is falsy,
    so also for the id 0; for a truthy [id] whose string has no dollar it
    posts the query for the row whose id equals that string between single
    quotes. *)
Theorem X5_getAnimals_query (st : state) (w : nat) (id : value) :
  workers st !! "default"%string = Some w ->
  ("executeQuery"%string ∉ Index.methods Index.Api) /\
  ("executeQuery"%string ∈ Draft.methods Draft.Api) /\
  (truthy id = false ->
     outbox (executeQuery (getAnimals id).1 (getAnimals id).2 st).2 =
       outbox st ++ [(w, VObj [("action", VStr "executeQuery");
                               ("sql", VStr "SELECT * FROM animals;")])]) /\
  (truthy id = true -> indexOf (ToString id) "$" = -1 ->
     outbox (executeQuery (getAnimals id).1 (getAnimals id).2 st).2 =
       outbox st ++ [(w, VObj [("action", VStr "executeQuery");
                               ("sql", VStr ("SELECT * FROM animals WHERE id='"
                                             +:+ ToString id +:+ "';"))])]).
Proof.
  intros Hw. split; [|split; [|split]].
  - unfold Index.methods. rewrite !elem_of_cons, elem_of_nil. intuition discriminate.
  - unfold Draft.methods. apply list_elem_of_further, list_elem_of_further, list_elem_of_here.
  - intros Hid. apply executeQuery_outbox; [exact Hw|].
    unfold getAnimals. by rewrite Hid.
  - intros Hid Hdollar. apply executeQuery_outbox; [exact Hw|].
    unfold getAnimals. rewrite Hid. simpl fst; simpl snd.
    change "SELECT * FROM animals WHERE id=$1;"%string
      with (template "SELECT * FROM animals WHERE id=" [";"%string] 0).
    rewrite executeQuery_queryString_template; try done.
    all: by repeat constructor.
Qed.

Lemma X5_getAnimals_query_witness :
  let st := (createDB VUndef init).2 in
  workers st !! "default"%string = Some 0%nat /\
  truthy (VNum 0) = false /\
  outbox (executeQuery (getAnimals (VNum 0)).1 (getAnimals (VNum 0)).2 st).2 =
    outbox st ++ [(0%nat, VObj [("action", VStr "executeQuery");
                                ("sql", VStr "SELECT * FROM animals;")])] /\
  outbox (executeQuery (getAnimals (VNum 7)).1 (getAnimals (VNum 7)).2 st).2 =
    outbox st ++ [(0%nat, VObj [("action", VStr "executeQuery");
                                ("sql", VStr "SELECT * FROM animals WHERE id='7';")])].
Proof.
  intros st.
  assert (Hw : workers st !! "default"%string = Some 0%nat) by reflexivity.
  split; [exact Hw|]. split; [reflexivity|]. split.
  - exact (proj1 (proj2 (proj2 (X5_getAnimals_query st 0 (VNum 0) Hw))) eq_refl).
  - refine (proj2 (proj2 (proj2 (X5_getAnimals_query st 0 (VNum 7) Hw))) eq_refl _).
    by vm_compute.
Defined.

(** X6: on the draft, with a worker registered as 'default', for an
    animal, a sound and an icon whose strings have no dollar,
    [insertAnimal] posts the INSERT statement with the three values between
    single quotes, unescaped; [deleteAnimal] does the same with the id. *)
Theorem X6_insert_and_delete_queries (st : state) (w : nat) (animal sound icon id : value) :
  workers st !! "default"%string = Some w ->
  (Forall (fun v => indexOf (ToString v) "$" = -1) [animal; sound; icon] ->
     outbox (executeQuery (insertAnimal animal sound icon).1
                          (insertAnimal animal sound icon).2 st).2 =
       outbox st ++
       [(w, VObj [("action", VStr "executeQuery");
                  ("sql", VStr ("INSERT INTO animals(animal, sound, icon) VALUES ('"
                                +:+ ToString animal +:+ "','" +:+ ToString sound
                                +:+ "','" +:+ ToString icon +:+ "') RETURNING id;"))])]) /\
  (indexOf (ToString id) "$" = -1 ->
     outbox (executeQuery (deleteAnimal id).1 (deleteAnimal id).2 st).2 =
       outbox st ++
       [(w, VObj [("action", VStr "executeQuery");
                  ("sql", VStr ("DELETE FROM animals WHERE id='" +:+ ToString id
                                +:+ "';"))])]).
Proof.
  intros Hw. split.
  - intros Hitems. apply executeQuery_outbox; [exact Hw|].
    unfold insertAnimal. simpl fst; simpl snd.
    change "INSERT INTO animals(animal, sound, icon) VALUES ($1,$2,$3) RETURNING id;"%string
      with (template "INSERT INTO animals(animal, sound, icon) VALUES ("
              [","; ","; ") RETURNING id;"]%string 0).
    rewrite executeQuery_queryString_template; try done.
    repeat constructor.
  - intros Hid. apply executeQuery_outbox; [exact Hw|].
    unfold deleteAnimal. simpl fst; simpl snd.
    change "DELETE FROM animals WHERE id=$1;"%string
      with (template "DELETE FROM animals WHERE id=" [";"%string] 0).
    rewrite executeQuery_queryString_template; try done.
    all: by repeat constructor.
Qed.

Lemma X6_insert_and_delete_queries_witness :
  let st := (createDB VUndef init).2 in
  workers st !! "default"%string = Some 0%nat /\
  outbox (executeQuery
            (insertAnimal (VStr "Cat") (VStr "Meaow!") (VStr "x'); DROP TABLE animals;--")).1
            (insertAnimal (VStr "Cat") (VStr "Meaow!") (VStr "x'); DROP TABLE animals;--")).2
            st).2 =
    outbox st ++
    [(0%nat, VObj [("action", VStr "executeQuery");
                   ("sql", VStr "INSERT INTO animals(animal, sound, icon) VALUES ('Cat','Meaow!','x'); DROP TABLE animals;--') RETURNING id;")])].
Proof.
  intros st.
  assert (Hw : workers st !! "default"%string = Some 0%nat) by reflexivity.
  split; [exact Hw|].
  refine (proj1 (X6_insert_and_delete_queries st 0 (VStr "Cat") (VStr "Meaow!")
                   (VStr "x'); DROP TABLE animals;--") VUndef Hw) _).
  repeat constructor; by vm_compute.
Defined.

End animals_facts.

(** ** The pools of the README drafts *)

Section pool_queries.
Import Pool PoolQueries.

Lemma getDbConnection_defined (st : state) :
  exists db, (getDbConnection true st).1 = Some (Some db).
Proof.
  unfold getDbConnection.
  destruct (length (dbPool st) <? MAX_POOL_SIZE)%nat eqn:E.
  - unfold createDbInstance. rewrite resume_returns_pushed. simpl. eauto.
  - apply Nat.ltb_ge in E. simpl.
    destruct (dbPool st) as [|x l] using rev_ind; [simpl in E; unfold MAX_POOL_SIZE in E; lia|].
    rewrite last_snoc. eauto.
Qed.

(** X16: the pool never holds more than [MAX_POOL_SIZE] instances:
    [getDbConnection] and [releaseDbConnection] keep the bound, and a
    release into a full pool closes the instance instead of pooling it.
    A call of [getDbConnection] that does not reject never returns
    [undefined]. *)
Theorem X16_pool_bounded (st : state) (init_ok : bool) (db : nat) :
  (length (dbPool st) <= MAX_POOL_SIZE)%nat ->
  (length (dbPool (getDbConnection init_ok st).2) <= MAX_POOL_SIZE)%nat /\
  (length (dbPool (releaseDbConnection db st)) <= MAX_POOL_SIZE)%nat /\
  (exists db', (getDbConnection true st).1 = Some (Some db')) /\
  (length (dbPool st) = MAX_POOL_SIZE ->
     dbPool (releaseDbConnection db st) = dbPool st /\
     closed (releaseDbConnection db st) = closed st ++ [db]).
Proof.
  intros Hlen. split; [|split; [|split]].
  - unfold getDbConnection.
    destruct (length (dbPool st) <? MAX_POOL_SIZE)%nat eqn:E.
    + destruct init_ok; unfold createDbInstance; [|exact Hlen].
      rewrite resume_returns_pushed. exact Hlen.
    + simpl. destruct (dbPool st) as [|x l] using rev_ind; [simpl; lia|].
      rewrite removelast_last. rewrite length_app in Hlen. simpl in Hlen. lia.
  - unfold releaseDbConnection.
    destruct (length (dbPool st) <? MAX_POOL_SIZE)%nat eqn:E; simpl; [|exact Hlen].
    apply Nat.ltb_lt in E. rewrite length_app. simpl. lia.
  - apply getDbConnection_defined.
  - intros Hfull. unfold releaseDbConnection.
    rewrite (proj2 (Nat.ltb_ge _ _)) by lia. by simpl.
Qed.

Lemma runQuery_after (n : nat) :
  runQuery true true (after n) = (Some (Nat.min n (MAX_POOL_SIZE - 1)), after (S n)).
Proof.
  unfold runQuery, getDbConnection, after. simpl dbPool. rewrite length_seq.
  destruct (Nat.min n MAX_POOL_SIZE <? MAX_POOL_SIZE)%nat eqn:E.
  - apply Nat.ltb_lt in E. unfold createDbInstance. rewrite resume_returns_pushed.
    unfold releaseDbConnection. simpl. rewrite length_seq.
    rewrite (proj2 (Nat.ltb_lt _ _) E). unfold push. simpl.
    unfold MAX_POOL_SIZE in *.
    replace (Nat.min n 4) with n in * by lia.
    replace (Nat.min n 3) with n by lia.
    replace (Nat.min (S n) 4) with (S n) by lia.
    change (0%nat :: seq 1 n) with (seq 0 (S n)). by rewrite seq_S.
  - apply Nat.ltb_ge in E. unfold MAX_POOL_SIZE in *.
    change (4 - 1)%nat with 3%nat.
    replace (Nat.min n 4) with 4%nat by lia.
    replace (Nat.min n 3) with 3%nat by lia.
    replace (Nat.min (S n) 4) with 4%nat by lia.
    reflexivity.
Qed.

(** X17: when queries run one after the other from an empty pool, each of
    the first [MAX_POOL_SIZE] queries makes an instance of its own and
    leaves it in the pool; every later query runs on the instance made
    last, so the other pooled instances are never used again; nothing is
    ever closed. *)
Theorem X17_sequential_queries (n : nat) :
  sequential n init =
    (map (fun i => Nat.min i (MAX_POOL_SIZE - 1)) (seq 0 n),
     {| dbPool := seq 0 (Nat.min n MAX_POOL_SIZE); created := Nat.min n MAX_POOL_SIZE;
        closed := [] |}).
Proof.
  induction n as [|n IH]; [reflexivity|].
  simpl sequential. rewrite IH. fold (after n). rewrite runQuery_after.
  rewrite seq_S, map_app. reflexivity.
Qed.

(** X18: a query whose statement throws never gives its connection back.
    Below [MAX_POOL_SIZE] the instance made for it is neither pooled nor
    closed; on a full pool the instance popped for it is lost to the pool
    and not closed. *)
Theorem X18_failed_query_keeps_connection (st : state) :
  ((length (dbPool st) < MAX_POOL_SIZE)%nat ->
     runQuery true false st =
       (None, {| dbPool := dbPool st; created := S (created st); closed := closed st |})) /\
  ((MAX_POOL_SIZE <= length (dbPool st))%nat ->
     runQuery true false st =
       (None, {| dbPool := removelast (dbPool st); created := created st;
                 closed := closed st |})).
Proof.
  unfold runQuery, getDbConnection. split; intros Hlen.
  - rewrite (proj2 (Nat.ltb_lt _ _) Hlen). unfold createDbInstance.
    rewrite resume_returns_pushed. reflexivity.
  - rewrite (proj2 (Nat.ltb_ge _ _) Hlen). simpl.
    by destruct (last (dbPool st)).
Qed.

Lemma X16_pool_bounded_witness :
  (length (dbPool (sequential 4 init).2) <= MAX_POOL_SIZE)%nat /\
  closed (releaseDbConnection 9 (sequential 4 init).2) = [9%nat] /\
  dbPool (releaseDbConnection 9 (sequential 4 init).2) = [0; 1; 2; 3]%nat.
Proof.
  assert (Hlen : (length (dbPool (sequential 4 init).2) <= MAX_POOL_SIZE)%nat)
    by (vm_compute; lia).
  pose proof (X16_pool_bounded (sequential 4 init).2 true 9 Hlen) as (_ & _ & _ & Hfull).
  split; [exact Hlen|].
  split; [exact (proj2 (Hfull eq_refl)) | exact (proj1 (Hfull eq_refl))].
Defined.

Lemma X18_failed_query_keeps_connection_witness :
  (length (dbPool init) < MAX_POOL_SIZE)%nat /\
  runQuery true false init = (None, {| dbPool := []; created := 1; closed := [] |}) /\
  (MAX_POOL_SIZE <= length (dbPool (sequential 4 init).2))%nat /\
  dbPool (runQuery true false (sequential 4 init).2).2 = [0; 1; 2]%nat.
Proof.
  assert (H1 : (length (dbPool init) < MAX_POOL_SIZE)%nat) by (vm_compute; lia).
  assert (H2 : (MAX_POOL_SIZE <= length (dbPool (sequential 4 init).2))%nat)
    by (vm_compute; lia).
  split; [exact H1|].
  split; [exact (proj1 (X18_failed_query_keeps_connection init) H1)|].
  split; [exact H2|].
  exact (f_equal (fun r => dbPool r.2)
           (proj2 (X18_failed_query_keeps_connection (sequential 4 init).2) H2)).
Defined.

End pool_queries.

Section worker_pool.
Import WorkerPool.

Lemma find_idle_none (st : state) (i : nat) :
  find_idle st i = None <-> Forall (fun busy => busy = true) st.
Proof.
  revert i. induction st as [|b st IH]; intros i; simpl.
  - split; [constructor|done].
  - destruct b.
    + rewrite IH. split; [by constructor|by intros [_ ?]%Forall_cons].
    + split; [discriminate|by intros [? _]%Forall_cons].
Qed.

Lemma find_idle_snoc (st : state) (i : nat) :
  find_idle st i = None -> find_idle (st ++ [false]) i = Some (i + length st)%nat.
Proof.
  revert i. induction st as [|b st IH]; intros i; simpl.
  - intros _. f_equal. lia.
  - destruct b; [|discriminate]. intros H. rewrite (IH _ H). f_equal. lia.
Qed.

Lemma find_idle_some (st : state) (i j : nat) :
  find_idle st i = Some j ->
  (i <= j)%nat /\ st !! (j - i)%nat = Some false /\
  forall k, (k < j - i)%nat -> st !! k = Some true.
Proof.
  revert i. induction st as [|b st IH]; intros i; simpl; [discriminate|].
  destruct b.
  - intros H. destruct (IH _ H) as (Hle & Hj & Hbefore).
    replace (j - i)%nat with (S (j - S i)) by lia.
    split; [lia|]. split; [exact Hj|].
    intros [|k] Hk; [reflexivity|]. apply Hbefore. lia.
  - intros [= <-]. rewrite Nat.sub_diag. split; [lia|]. split; [reflexivity|].
    intros k Hk. lia.
Qed.

(** X19: when every worker is busy, [getWorker] makes a new worker and
    returns it without marking it busy; the next call of [getWorker]
    returns that same worker again, and only then marks it. *)
Theorem X19_on_demand_worker_handed_out_twice (st : state) :
  Forall (fun busy => busy = true) st ->
  getWorker st = (length st, st ++ [false]) /\
  getWorker (getWorker st).2 = (length st, st ++ [true]).
Proof.
  intros Hbusy%(find_idle_none st 0).
  assert (H1 : getWorker st = (length st, st ++ [false])).
  { unfold getWorker. by rewrite Hbusy. }
  split; [exact H1|]. rewrite H1. simpl.
  unfold getWorker. rewrite (find_idle_snoc _ _ Hbusy).
  rewrite Nat.add_0_l. f_equal.
  rewrite insert_app_r_alt by lia. by rewrite Nat.sub_diag.
Qed.

(** X20: when some worker is idle, [getWorker] returns the first idle
    worker and marks it busy, without making a worker; [releaseWorker] on
    it puts the pool back as it was. *)
Theorem X20_getWorker_release_round_trip (st : state) (i : nat) :
  find_idle st 0 = Some i ->
  (getWorker st).1 = i /\
  st !! i = Some false /\
  (forall k, (k < i)%nat -> st !! k = Some true) /\
  (getWorker st).2 !! i = Some true /\
  length (getWorker st).2 = length st /\
  releaseWorker i (getWorker st).2 = st.
Proof.
  intros Hfind. destruct (find_idle_some _ _ _ Hfind) as (_ & Hi & Hbefore).
  rewrite Nat.sub_0_r in *. unfold getWorker, releaseWorker. rewrite Hfind. simpl.
  split; [reflexivity|]. split; [exact Hi|]. split; [exact Hbefore|].
  split; [apply list_lookup_insert_eq; by eapply lookup_lt_Some|].
  split; [apply length_insert|].
  rewrite list_insert_insert_eq. by apply list_insert_id.
Qed.

Lemma X19_on_demand_worker_handed_out_twice_witness :
  let st := Nat.iter 4 (fun st => (getWorker st).2) init in
  st = [true; true; true; true] /\
  (getWorker st).1 = 4%nat /\
  (getWorker (getWorker st).2).1 = 4%nat.
Proof.
  intros st.
  assert (Hbusy : Forall (fun busy => busy = true) st) by (repeat constructor).
  pose proof (X19_on_demand_worker_handed_out_twice st Hbusy) as (H1 & H2).
  split; [reflexivity|].
  split; [exact (f_equal fst H1) | exact (f_equal fst H2)].
Defined.

Lemma X20_getWorker_release_round_trip_witness :
  find_idle [true; false; false] 0 = Some 1%nat /\
  (getWorker [true; false; false]).2 = [true; true; false] /\
  releaseWorker 1 (getWorker [true; false; false]).2 = [true; false; false].
Proof.
  assert (Hfind : find_idle [true; false; false] 0 = Some 1%nat) by reflexivity.
  pose proof (X20_getWorker_release_round_trip [true; false; false] 1 Hfind)
    as (_ & _ & _ & _ & _ & Hback).
  split; [exact Hfind|]. split; [reflexivity | exact Hback].
Defined.

End worker_pool.

(** ** What the main side never hears *)

Section system_extras.
Import Index System.

(** X11: with [index.js] on one side and [sqliteWorker.js] on the other, no
    worker ever posts anything: in every state the two reach, nothing waits
    for the reply handler of [initalizeWorker], [returnValues] is empty,
    and whichever worker handles a message that is under way, with
    whatever [instance] and library, it answers nothing. *)
Theorem X11_workers_never_answer (s : state) :
  reachable s ->
  to_main s = [] /\ returnValues s = ∅ /\
  forall m lib inst, m ∈ to_workers s ->
    posted (Worker.trace (Worker.handle lib inst m).2) = [].
Proof.
  intros (Hrv & Hmain & Hwork & _)%reachable_quiet.
  split; [exact Hmain|]. split; [exact Hrv|].
  intros m lib inst Hin. apply posted_by_index_no_reply.
  rewrite Forall_forall in Hwork. by apply Hwork.
Qed.

Lemma X11_workers_never_answer_witness :
  let s := {| returnValues := ∅;
              to_workers := [VObj [("action", VStr "createDB"); ("name", VStr "animals")];
                             VObj [("action", VStr "downloadDB")]];
              to_main := []; timers := []; fulfilled := [] |} in
  reachable s /\
  forall lib inst,
    posted (Worker.trace (Worker.handle lib inst (VObj [("action", VStr "downloadDB")])).2) = [].
Proof.
  intros s.
  assert (Hs : reachable s).
  { pose (s1 := {| returnValues := ∅;
                     to_workers := [VObj [("action", VStr "createDB");
                                          ("name", VStr "animals")]];
                     to_main := []; timers := []; fulfilled := [] |}).
    apply (reachable_step s1).
    - apply (reachable_step init); [apply reachable_init|].
      exact (step_post init _ (post_createDB (VStr "animals"))).
    - exact (step_post s1 _ post_downloadDB). }
  split; [exact Hs|].
  intros lib inst.
  apply (proj2 (proj2 (X11_workers_never_answer s Hs))).
  apply list_elem_of_further, list_elem_of_here.
Defined.

End system_extras.
